(** * silly_blog: the tag resource (app/resources/tag.py)

    A shallow embedding of [TagResource] (list / show / create / update /
    delete of [Tag] rows behind Flask-RESTful, SQLAlchemy and marshmallow)
    and the properties of its handlers.

    Layout:
    - [PyStr]      the Python string operations the handlers use
                   ([str.lower], [in], [%r], [int()]);
    - [Sql]        the part of SQL the list query relies on ([LIKE],
                   [ORDER BY], [OFFSET] / [LIMIT]);
    - [Tag], [Schema], the store and its session;
    - [TagResource] the handlers, one definition per method of the class;
    - the properties. *)

From Stdlib Require Import ZArith List Ascii String Bool Lia Permutation.
From stdpp Require Import base gmap strings list.

Local Open Scope Z_scope.

(* ===================================================================== *)
(** * Python strings *)
(* ===================================================================== *)

(** Strings are sequences of characters; one [ascii] stands for one
    character, with its code point (0 to 255). *)

Module PyStr.

Definition dquote : ascii := ascii_of_nat 34.
Definition squote : ascii := ascii_of_nat 39.
Definition backslash : ascii := ascii_of_nat 92.

Definition code (c : ascii) : nat := nat_of_ascii c.

(** [c.lower()] on one character below 256: [A]..[Z] go to [a]..[z], and
    the capital letters 192..222 (215, the multiplication sign, is none) to
    the small ones 224..254. *)
Definition lower_char (c : ascii) : ascii :=
  if ((65 <=? code c)%nat && (code c <=? 90)%nat)
     || ((192 <=? code c)%nat && (code c <=? 222)%nat
         && negb (code c =? 215)%nat)
  then ascii_of_nat (code c + 32) else c.

(** [s.lower()] *)
Fixpoint lower (s : string) : string :=
  match s with
  | EmptyString => EmptyString
  | String c s' => String (lower_char c) (lower s')
  end.

(** [word in s]: [word] occurs in [s] as a contiguous substring. *)
Fixpoint contains (word s : string) : bool :=
  String.prefix word s ||
  match s with
  | EmptyString => false
  | String _ s' => contains word s'
  end.

(** [any(word in s for word in words)] *)
Definition any_in (words : list string) (s : string) : bool :=
  existsb (fun word => contains word s) words.

(** ** [%r] of a string *)

Definition hex_digit (n : nat) : ascii :=
  if (n <? 10)%nat then ascii_of_nat (48 + n) else ascii_of_nat (87 + n).

(** [c.isprintable()] for a character below 256: the control characters
    0..31 and 127..159, the no-break space 160 and the soft hyphen 173 are
    not printable. *)
Definition printable (c : ascii) : bool :=
  negb ((code c <? 32)%nat
        || ((127 <=? code c)%nat && (code c <=? 160)%nat)
        || (code c =? 173)%nat).

(** One character of [repr(s)] when the surrounding quote is [q]. *)
Definition repr_char (q c : ascii) : string :=
  if Ascii.eqb c backslash then String backslash (String backslash EmptyString)
  else if Ascii.eqb c q then String backslash (String q EmptyString)
  else if Ascii.eqb c (ascii_of_nat 9) then String backslash "t"
  else if Ascii.eqb c (ascii_of_nat 10) then String backslash "n"
  else if Ascii.eqb c (ascii_of_nat 13) then String backslash "r"
  else if negb (printable c)
       then String backslash
              (String "x" (String (hex_digit (code c / 16))
                             (String (hex_digit (code c mod 16)) EmptyString)))
  else String c EmptyString.

Fixpoint repr_body (q : ascii) (s : string) : string :=
  match s with
  | EmptyString => EmptyString
  | String c s' => repr_char q c +:+ repr_body q s'
  end.

(** [repr(s)]: single quotes, unless [s] holds a single quote and no double
    quote. *)
Definition repr (s : string) : string :=
  let q := if contains (String squote EmptyString) s
              && negb (contains (String dquote EmptyString) s)
           then dquote else squote in
  String q (repr_body q s +:+ String q EmptyString).

(** ** [int(s)] *)

(** The characters [int()] skips around the number: tab, line feed,
    vertical tab, form feed, carriage return and the space, and beyond ASCII
    the Unicode spaces, of which 133 (next line) and 160 (no-break space)
    are below 256. The separators 28..31 are not skipped. *)
Definition is_space (c : ascii) : bool :=
  ((9 <=? code c)%nat && (code c <=? 13)%nat)
  || (code c =? 32)%nat || (code c =? 133)%nat || (code c =? 160)%nat.

Definition is_digit (c : ascii) : bool :=
  (48 <=? code c)%nat && (code c <=? 57)%nat.

Definition digit_value (c : ascii) : Z := Z.of_nat (code c - 48).

Fixpoint lstrip (s : string) : string :=
  match s with
  | EmptyString => EmptyString
  | String c s' => if is_space c then lstrip s' else s
  end.

Fixpoint rev_append (s acc : string) : string :=
  match s with
  | EmptyString => acc
  | String c s' => rev_append s' (String c acc)
  end.

Definition strip (s : string) : string :=
  rev_append (lstrip (rev_append (lstrip s) EmptyString)) EmptyString.

(** Digits, with single underscores allowed between two digits.
    [after_digit] tells whether the previous character was a digit. *)
Fixpoint digits (s : string) (acc : Z) (after_digit : bool) : option Z :=
  match s with
  | EmptyString => if after_digit then Some acc else None
  | String c s' =>
      if is_digit c then digits s' (10 * acc + digit_value c) true
      else if Ascii.eqb c "_" && after_digit then
        match s' with
        | EmptyString => None
        | String d _ => if is_digit d then digits s' acc false else None
        end
      else None
  end.

(** The number of digits of a string. *)
Fixpoint count_digits (s : string) : nat :=
  match s with
  | EmptyString => O
  | String c s' => if is_digit c then S (count_digits s') else count_digits s'
  end.

(** [int(s)]; [None] stands for [ValueError]. [max_str_digits] is the limit
    of the interpreter on the number of digits ([sys.int_max_str_digits]),
    [None] when it has none. *)
Definition int (max_str_digits : option nat) (s : string) : option Z :=
  if match max_str_digits with
     | Some limit => (limit <? count_digits s)%nat
     | None => false
     end
  then None
  else
    match strip s with
    | String "-" s' => Z.opp <$> digits s' 0 false
    | String "+" s' => digits s' 0 false
    | s' => digits s' 0 false
    end.

(** Truth value of [request.args.get(k)]: neither [None] nor empty. *)
Definition truthy (o : option string) : bool :=
  match o with
  | Some (String _ _) => true
  | _ => false
  end.

End PyStr.


(* ===================================================================== *)
(** * The Tag model and the errors of the database layer *)
(* ===================================================================== *)

(** Modelled from the spec: [silly_blog.app.models.Tag] is not part of the
    sources at hand. A tag has a store-assigned [id], a unique [name] and
    two store-maintained timestamps. Identifiers are strings (the route is
    [/tags/<string:tag_id>]); timestamps are integers (seconds). *)
Module Tag.
Record t : Type := mk {
  id : string;
  name : string;
  created_at : Z;
  updated_at : Z
}.
End Tag.

(** The classes of [sqlalchemy.exc] that wrap a driver error; all but
    [InterfaceError] derive from [DatabaseError]. [OverflowError] is
    Python's: a driver raises it for an integer it cannot bind, and
    SQLAlchemy lets it through. *)
Inductive error_class : Type :=
| DatabaseError | IntegrityError | OperationalError | DataError
| ProgrammingError | InternalError | NotSupportedError | InterfaceError
| OverflowError.

(** An exception of the database layer: [ex.orig] is rendered by its text
    and [ex.code] is the short code SQLAlchemy attaches to the class. *)
Record DBAPIError : Type := mkError {
  error_cls : error_class;
  orig : string;
  code : string
}.

Definition isinstance_IntegrityError (ex : DBAPIError) : bool :=
  match error_cls ex with IntegrityError => true | _ => false end.

Definition isinstance_DatabaseError (ex : DBAPIError) : bool :=
  match error_cls ex with
  | InterfaceError | OverflowError => false
  | _ => true
  end.

(** Modelled from the spec: the mapped attributes of [Tag] are its four
    columns; they are what [getattr(Tag, attr, None)] returns when the result
    is an [InstrumentedAttribute]. *)
Inductive InstrumentedAttribute : Type :=
| Tag_id | Tag_name | Tag_created_at | Tag_updated_at.

(** [getattr(Tag, attr, None)] followed by the [isinstance] test of the
    handler: [None] stands for both a missing attribute and an attribute
    that is not instrumented (a method, [query], ...). *)
Definition getattr_Tag (attr : string) : option InstrumentedAttribute :=
  if String.eqb attr "id" then Some Tag_id
  else if String.eqb attr "name" then Some Tag_name
  else if String.eqb attr "created_at" then Some Tag_created_at
  else if String.eqb attr "updated_at" then Some Tag_updated_at
  else None.

(** Operators of [sqlalchemy.sql.operators] that appear in a
    [UnaryExpression]. *)
Inductive operator : Type :=
| asc_op | desc_op | nullsfirst_op | nullslast_op | distinct_op
| any_op | all_op | neg | inv.

Record UnaryExpression : Type := mkUnary {
  element : InstrumentedAttribute;
  modifier : operator
}.

(** [getattr(sort_attribute, direction)()] followed by the [isinstance]
    test of the handler. The handler reflects into the attribute, so every
    method of SQLAlchemy's [ColumnOperators] that takes no argument and
    builds a [UnaryExpression] is accepted, not only [asc] and [desc].
    [None] stands for [AttributeError] and [TypeError] (missing name, not
    callable, arguments required, result of another class). *)
Definition getattr_call (a : InstrumentedAttribute) (direction : string)
  : option UnaryExpression :=
  mkUnary a <$>
    (if String.eqb direction "asc" then Some asc_op
     else if String.eqb direction "desc" then Some desc_op
     else if String.eqb direction "nullsfirst" then Some nullsfirst_op
     else if String.eqb direction "nullslast" then Some nullslast_op
     else if String.eqb direction "distinct" then Some distinct_op
     else if String.eqb direction "any_" then Some any_op
     else if String.eqb direction "all_" then Some all_op
     else if String.eqb direction "__neg__" then Some neg
     else if String.eqb direction "__invert__" then Some inv
     else None).

(** What the deployment supplies: the timestamp parser of
    [silly_blog.contrib.utils], and the behaviour of the database engine
    where engines differ. *)
Record Platform : Type := mkPlatform {
  (** [parse_isotime(s)]; [inl msg] stands for [ValueError(msg)]. *)
  parse_isotime : string -> string + Z;
  (** Text of the driver's error when a unique constraint on the given
      column of [tag] is violated. *)
  unique_violation_text : string -> string;
  (** [ORDER BY] with a modifier other than [ASC] / [DESC]: the engine
      rejects the statement, or sorts with an order of its own. *)
  dialect_order :
    operator -> InstrumentedAttribute -> DBAPIError + (Tag.t -> Tag.t -> bool);
  (** [LIMIT n] with [n < 0]: the engine rejects the statement ([Some]), or
      reads it as the absence of a limit ([None]). *)
  dialect_negative_limit : option DBAPIError;
  (** Whether [LIKE] takes two characters for the same one: the collation
      of the column [name] (binary, or blind to the case of letters, ...). *)
  collation_eq : ascii -> ascii -> bool;
  (** An integer outside the signed 64-bit range as [LIMIT] or [OFFSET]:
      the driver or the engine refuses it ([Some]), or takes it ([None]). *)
  dialect_big_integer : Z -> option DBAPIError;
  (** [sys.int_max_str_digits] of the interpreter, [None] when it has no
      such limit. *)
  int_max_str_digits : option nat
}.

(* ===================================================================== *)
(** * SQL: LIKE, ORDER BY, OFFSET and LIMIT *)
(* ===================================================================== *)

Module Sql.

(** [s LIKE pattern] without [ESCAPE] clause: [%] matches any run of
    characters, [_] any single character, and every other character of the
    pattern the characters the collation [eq] takes for the same. *)
Fixpoint like (eq : ascii -> ascii -> bool) (pattern s : string) : bool :=
  match pattern with
  | EmptyString => match s with EmptyString => true | _ => false end
  | String p pattern' =>
      if Ascii.eqb p "%" then
        (fix skip (s : string) : bool :=
           like eq pattern' s ||
           match s with
           | EmptyString => false
           | String _ s' => skip s'
           end) s
      else
        match s with
        | EmptyString => false
        | String c s' => (Ascii.eqb p "_" || eq p c) && like eq pattern' s'
        end
  end.

(** The comparison of characters that is blind to the case of the 26
    ASCII letters ([NOCASE] of SQLite). *)
Definition nocase (c d : ascii) : bool :=
  let fold (c : ascii) :=
    if (65 <=? PyStr.code c)%nat && (PyStr.code c <=? 90)%nat
    then ascii_of_nat (PyStr.code c + 32) else c in
  Ascii.eqb (fold c) (fold d).

(** Comparison of two rows on a column. *)
Definition compare_on (a : InstrumentedAttribute) (x y : Tag.t) : comparison :=
  match a with
  | Tag_id => String.compare (Tag.id x) (Tag.id y)
  | Tag_name => String.compare (Tag.name x) (Tag.name y)
  | Tag_created_at => Z.compare (Tag.created_at x) (Tag.created_at y)
  | Tag_updated_at => Z.compare (Tag.updated_at x) (Tag.updated_at y)
  end.

Definition asc_le (a : InstrumentedAttribute) (x y : Tag.t) : bool :=
  match compare_on a x y with Gt => false | _ => true end.

Definition desc_le (a : InstrumentedAttribute) (x y : Tag.t) : bool :=
  match compare_on a x y with Lt => false | _ => true end.

Section Sort.
Context {A : Type} (le : A -> A -> bool).

Fixpoint insert (x : A) (l : list A) : list A :=
  match l with
  | [] => [x]
  | y :: l' => if le x y then x :: l else y :: insert x l'
  end.

(** Rows with equal keys keep the order of the table. *)
Definition sort (l : list A) : list A := fold_right insert [] l.

(** [le] holds between each element and all later ones. *)
Fixpoint ordered (l : list A) : Prop :=
  match l with
  | [] => True
  | x :: l' => (forall y, In y l' -> le x y = true) /\ ordered l'
  end.

End Sort.

(** The order [ORDER BY e] sorts with. *)
Definition ordering_of (P : Platform) (e : UnaryExpression)
  : DBAPIError + (Tag.t -> Tag.t -> bool) :=
  match modifier e with
  | asc_op => inr (asc_le (element e))
  | desc_op => inr (desc_le (element e))
  | m => dialect_order P m (element e)
  end.

(** [ORDER BY e] *)
Definition order_by (P : Platform) (e : UnaryExpression) (rows : list Tag.t)
  : DBAPIError + list Tag.t :=
  match ordering_of P e with
  | inl ex => inl ex
  | inr le => inr (sort le rows)
  end.

(** Binding an integer to the statement: the signed 64-bit integers are
    taken, the others are the platform's matter. [Some] is the exception
    that leaves the query. *)
Definition bind_integer (P : Platform) (n : Z) : option DBAPIError :=
  if (- 2 ^ 63 <=? n) && (n <? 2 ^ 63) then None else dialect_big_integer P n.

(** [OFFSET n] *)
Definition offset (P : Platform) (n : Z) (rows : list Tag.t)
  : DBAPIError + list Tag.t :=
  match bind_integer P n with
  | Some ex => inl ex
  | None => inr (skipn (Z.to_nat n) rows)
  end.

(** [LIMIT n] *)
Definition limit (P : Platform) (n : Z) (rows : list Tag.t)
  : DBAPIError + list Tag.t :=
  match bind_integer P n with
  | Some ex => inl ex
  | None =>
      if n <? 0 then
        match dialect_negative_limit P with
        | Some ex => inl ex
        | None => inr rows
        end
      else inr (firstn (Z.to_nat n) rows)
  end.

End Sql.


(* ===================================================================== *)
(** * Queries *)
(* ===================================================================== *)

(** The two criteria the list handler builds: [Tag.name.like(pattern)] and
    [Tag.updated_at >= since]. *)
Inductive criterion : Type :=
| name_like (pattern : string)
| updated_at_ge (since : Z).

Definition holds (P : Platform) (c : criterion) (tag : Tag.t) : bool :=
  match c with
  | name_like pattern => Sql.like (collation_eq P) pattern (Tag.name tag)
  | updated_at_ge since => since <=? Tag.updated_at tag
  end.

(** A [Query] object is a description of a SELECT; nothing is run before
    [count] or [all]. *)
Module Query.

Record t : Type := mk {
  criteria : list criterion;
  ordering : option UnaryExpression;
  offset_clause : option Z;
  limit_clause : option Z
}.

(** [Tag.query] *)
Definition Tag_query : t := mk [] None None None.

Definition filter (c : criterion) (q : t) : t :=
  mk (criteria q ++ [c]) (ordering q) (offset_clause q) (limit_clause q).

Definition order_by (e : UnaryExpression) (q : t) : t :=
  mk (criteria q) (Some e) (offset_clause q) (limit_clause q).

Definition offset (n : Z) (q : t) : t :=
  mk (criteria q) (ordering q) (Some n) (limit_clause q).

Definition limit (n : Z) (q : t) : t :=
  mk (criteria q) (ordering q) (offset_clause q) (Some n).

(** The rows of the WHERE clause. *)
Definition matching (P : Platform) (q : t) (rows : list Tag.t)
  : list Tag.t :=
  List.filter (fun tag => forallb (fun c => holds P c tag) (criteria q)) rows.

(** [query.all()]: WHERE, then ORDER BY, then OFFSET, then LIMIT. *)
Definition all (P : Platform) (q : t) (rows : list Tag.t)
  : DBAPIError + list Tag.t :=
  match match ordering q with
        | None => inr (matching P q rows)
        | Some e => Sql.order_by P e (matching P q rows)
        end with
  | inl ex => inl ex
  | inr ordered =>
      match match offset_clause q with
            | None => inr ordered
            | Some n => Sql.offset P n ordered
            end with
      | inl ex => inl ex
      | inr skipped =>
          match limit_clause q with
          | None => inr skipped
          | Some n => Sql.limit P n skipped
          end
      end
  end.

(** [query.count()]: the number of rows of the query taken as a subquery. *)
Definition count (P : Platform) (q : t) (rows : list Tag.t) : DBAPIError + Z :=
  match all P q rows with
  | inl ex => inl ex
  | inr l => inr (Z.of_nat (length l))
  end.

(** [Tag.query.get(tag_id)] *)
Definition get (tag_id : string) (rows : list Tag.t) : option Tag.t :=
  List.find (fun tag => String.eqb (Tag.id tag) tag_id) rows.

End Query.

(* ===================================================================== *)
(** * Request bodies and their validation (marshmallow) *)
(* ===================================================================== *)

(** A JSON value found under a key of the envelope; the validators never
    look inside arrays and objects. *)
Inductive json : Type :=
| JNull
| JBool (b : bool)
| JNumber (n : Z)
| JString (s : string)
| JArray
| JObject.

Module Schema.

Definition msg_required : string := "Missing data for required field.".
Definition msg_null : string := "Field may not be null.".
Definition msg_invalid : string := "Not a valid string.".
Definition msg_length : string := "Length must be between 1 and 64.".

(** [Length(min=1, max=64)] *)
Definition Length_1_64 (value : string) : bool :=
  (1 <=? String.length value)%nat && (String.length value <=? 64)%nat.

(** [fields.Str(validate=Length(min=1, max=64))] on a value that is
    present: [inl] carries the messages of the field. *)
Definition Str_deserialize (value : json) : list string + string :=
  match value with
  | JNull => inl [msg_null]
  | JString s => if Length_1_64 s then inr s else inl [msg_length]
  | _ => inl [msg_invalid]
  end.

(** [CreateTagSchema().load(body)]: [inl errors] when [result.errors] is not
    empty, else [inr] of the name of [Tag.from_dict(data)]. Keys other than
    [name] are ignored. *)
Definition CreateTagSchema_load (body : gmap string json)
  : gmap string (list string) + string :=
  match body !! "name" with
  | None => inl {[ "name" := [msg_required] ]}
  | Some value =>
      match Str_deserialize value with
      | inl msgs => inl {[ "name" := msgs ]}
      | inr name => inr name
      end
  end.

(** [UpdateTagSchema().load(body)]: [inr data] where [data] is the value of
    [name] when the body has one. *)
Definition UpdateTagSchema_load (body : gmap string json)
  : gmap string (list string) + option string :=
  match body !! "name" with
  | None => inr None
  | Some value =>
      match Str_deserialize value with
      | inl msgs => inl {[ "name" := msgs ]}
      | inr name => inr (Some name)
      end
  end.

End Schema.

(* ===================================================================== *)
(** * Responses *)
(* ===================================================================== *)

Inductive message : Type :=
| Text (s : string)
| FieldErrors (errors : gmap string (list string)).

(** What a handler returns. [tag.to_dict()] belongs to the model and is left
    as the row itself. *)
Inductive response : Type :=
| TagBody (tag : Tag.t)
| TagsBody (tags : list Tag.t) (total : Z)
| NoContent
| ErrorResponse (status : Z) (msg : message) (error_code : option string).

(** Modelled from the spec: [make_error_response] of
    [silly_blog.contrib.utils] is not part of the sources at hand; it builds
    the error response with the given status and message, and the internal
    code when one is passed. *)
Definition make_error_response (status : Z) (msg : message)
  (error_code : option string) : response :=
  ErrorResponse status msg error_code.

Definition status_of (r : response) : Z :=
  match r with
  | TagBody _ | TagsBody _ _ => 200
  | NoContent => 204
  | ErrorResponse status _ _ => status
  end.

(* ===================================================================== *)
(** * The store and its session *)
(* ===================================================================== *)

(** A change recorded in [db.session] and not yet committed. *)
Inductive change : Type :=
| Insert (name : string)
| SetName (tag_id : string) (name : string)
| Remove (tag_id : string).

(** [rows] is the committed content of the table, [session] the unit of work
    of the current transaction, [log] what went to [LOG]. A request starts
    with an empty session. *)
Record State : Type := mkState {
  rows : list Tag.t;
  session : list change;
  log : list string
}.

(** What the surroundings decide for one request: the error the driver
    raises at commit if any (lost connection, constraint other than a
    unique one, ...), the identifier and the time the store assigns. *)
Record Ctx : Type := mkCtx {
  fault : option DBAPIError;
  new_id : string;
  now : Z
}.

Definition unique_violation (P : Platform) (column : string) : DBAPIError :=
  mkError IntegrityError (unique_violation_text P column) "gkpj".

(** The row an [Insert] produces. *)
Definition inserted (ctx : Ctx) (name : string) : Tag.t :=
  Tag.mk (new_id ctx) name (now ctx) (now ctx).

Definition renamed (ctx : Ctx) (name : string) (tag : Tag.t) : Tag.t :=
  Tag.mk (Tag.id tag) name (Tag.created_at tag) (now ctx).

Definition id_taken (tag_id : string) (table : list Tag.t) : bool :=
  existsb (fun tag => String.eqb (Tag.id tag) tag_id) table.

Definition name_taken (name : string) (table : list Tag.t) : bool :=
  existsb (fun tag => String.eqb (Tag.name tag) name) table.

(** Some row other than [tag_id] has the name. *)
Definition name_taken_by_other (tag_id name : string) (table : list Tag.t)
  : bool :=
  existsb (fun tag => String.eqb (Tag.name tag) name
                      && negb (String.eqb (Tag.id tag) tag_id)) table.

(** Modelled from the spec: the table definition belongs to
    [silly_blog.app.models]. [id] is the primary key and [name] is unique;
    the store enforces both when a change is flushed. *)
Definition flush_one (P : Platform) (ctx : Ctx) (c : change)
  (table : list Tag.t) : DBAPIError + list Tag.t :=
  match c with
  | Insert name =>
      if id_taken (new_id ctx) table then inl (unique_violation P "id")
      else if name_taken name table then inl (unique_violation P "name")
      else inr (table ++ [inserted ctx name])
  | SetName tag_id name =>
      if name_taken_by_other tag_id name table
      then inl (unique_violation P "name")
      else inr (map (fun tag => if String.eqb (Tag.id tag) tag_id
                                then renamed ctx name tag else tag) table)
  | Remove tag_id =>
      inr (List.filter (fun tag => negb (String.eqb (Tag.id tag) tag_id)) table)
  end.

Fixpoint flush (P : Platform) (ctx : Ctx) (cs : list change)
  (table : list Tag.t) : DBAPIError + list Tag.t :=
  match cs with
  | [] => inr table
  | c :: cs' =>
      match flush_one P ctx c table with
      | inl ex => inl ex
      | inr table' => flush P ctx cs' table'
      end
  end.

(** ** Handlers run in a state monad with exceptions *)

Definition M (A : Type) : Type := State -> (DBAPIError + A) * State.

Definition ret {A : Type} (a : A) : M A := fun st => (inr a, st).

Definition bind {A B : Type} (m : M A) (k : A -> M B) : M B :=
  fun st =>
    match m st with
    | (inl ex, st') => (inl ex, st')
    | (inr a, st') => k a st'
    end.

Declare Scope handler_scope.
Delimit Scope handler_scope with handler.
Notation "x <- m ;; k" := (bind m (fun x => k))
  (at level 100, m at next level, right associativity) : handler_scope.
Notation "m ;; k" := (bind m (fun _ => k))
  (at level 100, right associativity) : handler_scope.

(** [try: body  except cls as ex: handler ex  else: orelse]; [catches] is
    the [isinstance] test of the [except] clause. *)
Definition try_except_else {A B : Type} (body : M A)
  (catches : DBAPIError -> bool) (handler : DBAPIError -> M B)
  (orelse : A -> M B) : M B :=
  fun st =>
    match body st with
    | (inl ex, st') => if catches ex then handler ex st' else (inl ex, st')
    | (inr a, st') => orelse a st'
    end.

(** [db.session.add(tag)] for a tag made by [Tag.from_dict] *)
Definition session_add (name : string) : M unit :=
  fun st => (inr tt, mkState (rows st) (session st ++ [Insert name]) (log st)).

(** [db.session.commit()]: the pending changes reach the table together or
    not at all. When the flush or the commit fails, SQLAlchemy rolls the
    transaction back itself before the exception is raised: new objects are
    expunged and deleted ones restored, so nothing is pending afterwards. *)
Definition session_commit (P : Platform) (ctx : Ctx) : M unit :=
  fun st =>
    match fault ctx with
    | Some ex => (inl ex, mkState (rows st) [] (log st))
    | None =>
        match flush P ctx (session st) (rows st) with
        | inl ex => (inl ex, mkState (rows st) [] (log st))
        | inr table => (inr tt, mkState table [] (log st))
        end
    end.

(** [db.session.rollback()] *)
Definition session_rollback : M unit :=
  fun st => (inr tt, mkState (rows st) [] (log st)).

(** [LOG.exception(msg)] *)
Definition LOG_exception (msg : string) : M unit :=
  fun st => (inr tt, mkState (rows st) (session st) (log st ++ [msg])).

(** [Tag.query.get(tag_id)] *)
Definition Tag_query_get (tag_id : string) : M (option Tag.t) :=
  fun st => (inr (Query.get tag_id (rows st)), st).

(** Modelled from the spec: [Tag.update] belongs to
    [silly_blog.app.models]; it applies the provided fields and persists
    (commits). *)
Definition Tag_update (P : Platform) (ctx : Ctx) (tag : Tag.t)
  (data : option string) : M unit :=
  fun st =>
    session_commit P ctx
      (match data with
       | Some name =>
           mkState (rows st) (session st ++ [SetName (Tag.id tag) name]) (log st)
       | None => st
       end).

(** Modelled from the spec: [Tag.delete] belongs to
    [silly_blog.app.models]; it deletes the row and commits. *)
Definition Tag_delete (P : Platform) (ctx : Ctx) (tag : Tag.t) : M unit :=
  fun st =>
    session_commit P ctx
      (mkState (rows st) (session st ++ [Remove (Tag.id tag)]) (log st)).

(* ===================================================================== *)
(** * TagResource *)
(* ===================================================================== *)

(** The handlers are the bodies of the methods of [TagResource]. The
    decorators ([auth.login_required], [envelope_json_required]) run before
    them: a handler is entered by an authenticated request, and [g_tag] is
    the object found under the key [tag] of the body. *)
Module TagResource.

Local Open Scope handler_scope.

(** [any(word in reason.lower() for word in ["duplicate", "unique"])] *)
Definition is_duplicate (reason : string) : bool :=
  PyStr.any_in ["duplicate"; "unique"] (PyStr.lower reason).

Definition not_found (tag_id : string) : response :=
  make_error_response 404
    (Text ("Tag " +:+ PyStr.repr tag_id +:+ " not found")) None.

Definition _get_by_id (tag_id : string) (table : list Tag.t) : response :=
  match Query.get tag_id table with
  | None => not_found tag_id
  | Some tag => TagBody tag
  end.

(** [get(self, tag_id=None)]: [inl] is an exception that leaves the
    handler. *)
Definition get (P : Platform) (args : gmap string string)
  (tag_id : option string) (table : list Tag.t) : DBAPIError + response :=
  match tag_id with
  | Some (String c tid) => inr (_get_by_id (String c tid) table)
  | _ =>
  let query := Query.Tag_query in
  (* filter by name *)
  let query :=
    match args !! "name" with
    | Some name => Query.filter (name_like ("%" +:+ name +:+ "%")) query
    | None => query
    end in
  (* since *)
  match
    match args !! "since" with
    | Some since =>
        match parse_isotime P since with
        | inl msg => inl (make_error_response 400 (Text msg) None)
        | inr since => inr (Query.filter (updated_at_ge since) query)
        end
    | None => inr query
    end
  with
  | inl early => inr early
  | inr query =>
  (* order by related *)
  let sort := default "updated_at" (args !! "sort") in
  match getattr_Tag sort with
  | None =>
      inr (make_error_response 400
             (Text ("Unknown sort " +:+ PyStr.repr sort)) None)
  | Some sort_attribute =>
  let direction := default "desc" (args !! "direction") in
  match getattr_call sort_attribute direction with
  | None =>
      inr (make_error_response 400
             (Text ("Unknown direction " +:+ PyStr.repr direction)) None)
  | Some sort_exp =>
  let query := Query.order_by sort_exp query in
  (* before offset and limit, we get the entry total number *)
  match Query.count P query table with
  | inl ex => inl ex
  | inr total =>
  (* offset limit related *)
  let page := args !! "page" in
  let pagesize := args !! "pagesize" in
  match
    if PyStr.truthy page && PyStr.truthy pagesize then
      match PyStr.int (int_max_str_digits P) (default EmptyString page) with
      | None =>
          inl (make_error_response 400
                 (Text ("Unknown page "
                        +:+ PyStr.repr (default EmptyString page))) None)
      | Some page =>
          match PyStr.int (int_max_str_digits P)
                  (default EmptyString pagesize) with
          | None =>
              inl (make_error_response 400
                     (Text ("Unknown pagesize "
                            +:+ PyStr.repr (default EmptyString pagesize))) None)
          | Some pagesize =>
              let offset := (page - 1) * pagesize in (* page starts from 1 *)
              let offset := if offset <? 0 then 0 else offset in
              inr (Query.limit pagesize (Query.offset offset query))
          end
      end
    else inr query
  with
  | inl early => inr early
  | inr query =>
  match Query.all P query table with
  | inl ex => inl ex
  | inr tags => inr (TagsBody tags total)
  end end end end end end end.

(** The [except IntegrityError as ex] block shared by [post] and [put]. *)
Definition on_integrity_error (ex : DBAPIError) : M response :=
  session_rollback ;;
  let reason := orig ex in
  if is_duplicate reason
  then ret (make_error_response 409 (Text reason) None)
  else
    LOG_exception "An unknown db error occurred" ;;
    ret (make_error_response 500 (Text "DB Error") (Some (code ex))).

Definition post (P : Platform) (ctx : Ctx) (g_tag : gmap string json)
  : M response :=
  match Schema.CreateTagSchema_load g_tag with
  | inl errors => ret (make_error_response 400 (FieldErrors errors) None)
  | inr tag =>
      try_except_else
        (session_add tag ;; session_commit P ctx)
        isinstance_IntegrityError on_integrity_error
        (fun _ => ret (TagBody (inserted ctx tag)))
  end.

Definition put (P : Platform) (ctx : Ctx) (tag_id : string)
  (g_tag : gmap string json) : M response :=
  match Schema.UpdateTagSchema_load g_tag with
  | inl errors => ret (make_error_response 400 (FieldErrors errors) None)
  | inr data =>
      tag <- Tag_query_get tag_id ;;
      match tag with
      | None => ret (not_found tag_id)
      | Some tag =>
          try_except_else
            (Tag_update P ctx tag data)
            isinstance_IntegrityError on_integrity_error
            (fun _ =>
               tag' <- Tag_query_get tag_id ;;
               ret (TagBody (default tag tag')))
      end
  end.

Definition delete (P : Platform) (ctx : Ctx) (tag_id : string) : M response :=
  tag <- Tag_query_get tag_id ;;
  match tag with
  | None => ret (not_found tag_id)
  | Some tag =>
      try_except_else
        (Tag_delete P ctx tag)
        isinstance_DatabaseError
        (fun ex =>
           LOG_exception "An unknown db error occurred" ;;
           ret (make_error_response 500 (Text "DB Error") (Some (code ex))))
        (fun _ => ret NoContent)
  end.

End TagResource.

(** ** A deployment for the examples *)

(** Timestamps are written as decimal seconds; unique violations are
    reported the way SQLite words them; the engine sorts [NULLS FIRST] and
    [NULLS LAST] like [ASC] (no column holds a null), rejects the other
    modifiers, reads a negative limit as no limit and compares the
    characters of [name] as they are (a binary collation, that of [LIKE] in
    SQLite once [case_sensitive_like] is on); the driver raises
    [OverflowError] for an integer beyond 64 bits; [int()] has no limit on
    the number of digits. *)
Definition example_platform : Platform :=
  mkPlatform
    (fun s => match PyStr.int None s with
              | Some n => inr n
              | None => inl ("Invalid timestamp " +:+ PyStr.repr s)
              end)
    (fun column => "UNIQUE constraint failed: tag." +:+ column)
    (fun m a =>
       match m with
       | nullsfirst_op | nullslast_op => inr (Sql.asc_le a)
       | _ => inl (mkError OperationalError "syntax error" "e3q8")
       end)
    None
    Ascii.eqb
    (fun _ => Some (mkError OverflowError
                      "Python int too large to convert to SQLite INTEGER"
                      EmptyString))
    None.

(** The same deployment with the comparison [LIKE] makes by default in
    SQLite, blind to the case of the ASCII letters; the default collations
    of MySQL are blind to it as well. *)
Definition nocase_platform : Platform :=
  mkPlatform
    (parse_isotime example_platform)
    (unique_violation_text example_platform)
    (dialect_order example_platform)
    (dialect_negative_limit example_platform)
    Sql.nocase
    (dialect_big_integer example_platform)
    (int_max_str_digits example_platform).

(** Three rows used in the examples. *)
Definition example_table : list Tag.t :=
  [ Tag.mk "1" "db" 10 10; Tag.mk "2" "web" 20 30; Tag.mk "3" "a_b" 30 20 ].

(** Twenty-five rows, named [a] to [y], updated at times 1 to 25. *)
Definition example_rows : list Tag.t :=
  map (fun i => let letter := String (ascii_of_nat (96 + i)) EmptyString in
                Tag.mk letter letter 0 (Z.of_nat i))
      (seq 1 25).

(* ===================================================================== *)
(** * Vocabulary of the properties *)
(* ===================================================================== *)

(** The [since] parameter is absent or parses. *)
Definition since_ok (P : Platform) (args : gmap string string) : bool :=
  match args !! "since" with
  | Some since =>
      match parse_isotime P since with inr _ => true | inl _ => false end
  | None => true
  end.

(** A tag passes the name filter and the since filter of a request. *)
Definition satisfies_filters (P : Platform) (args : gmap string string)
  (tag : Tag.t) : bool :=
  match args !! "name" with
  | Some name =>
      Sql.like (collation_eq P) ("%" +:+ name +:+ "%") (Tag.name tag)
  | None => true
  end
  &&
  match args !! "since" with
  | Some since =>
      match parse_isotime P since with
      | inr ts => ts <=? Tag.updated_at tag
      | inl _ => false
      end
  | None => true
  end.

Definition filtered (P : Platform) (args : gmap string string)
  (table : list Tag.t) : list Tag.t :=
  List.filter (satisfies_filters P args) table.

(** The request without its pagination parameters. *)
Definition without_pagination (args : gmap string string)
  : gmap string string :=
  delete "page" (delete "pagesize" args).

(** Rows [offset + 1 .. offset + pagesize] of [sorted], where
    [offset = (page - 1) * pagesize], or 0 when that is negative. *)
Definition window (page pagesize : Z) (sorted : list Tag.t) : list Tag.t :=
  firstn (Z.to_nat pagesize)
    (skipn (Z.to_nat (Z.max 0 ((page - 1) * pagesize))) sorted).

(** The last stage of the list handler, applied to the filtered and sorted
    rows. *)
Definition paginate (P : Platform) (page pagesize : option string)
  (sorted : list Tag.t) : DBAPIError + response :=
  let total := Z.of_nat (length sorted) in
  if PyStr.truthy page && PyStr.truthy pagesize then
    match PyStr.int (int_max_str_digits P) (default EmptyString page) with
    | None =>
        inr (make_error_response 400
               (Text ("Unknown page "
                      +:+ PyStr.repr (default EmptyString page))) None)
    | Some p =>
        match PyStr.int (int_max_str_digits P)
                (default EmptyString pagesize) with
        | None =>
            inr (make_error_response 400
                   (Text ("Unknown pagesize "
                          +:+ PyStr.repr (default EmptyString pagesize))) None)
        | Some ps =>
            match Sql.offset P (Z.max 0 ((p - 1) * ps)) sorted with
            | inl ex => inl ex
            | inr skipped =>
                match Sql.limit P ps skipped with
                | inl ex => inl ex
                | inr tags => inr (TagsBody tags total)
                end
            end
        end
    end
  else inr (TagsBody sorted total).

(** A string that LIKE reads literally: no [%], no [_], and no backslash
    (the default escape character of some engines). *)
Fixpoint literal (s : string) : bool :=
  match s with
  | EmptyString => true
  | String c s' =>
      negb (Ascii.eqb c "%") && negb (Ascii.eqb c "_")
      && negb (Ascii.eqb c PyStr.backslash) && literal s'
  end.

(** [word] is a prefix of [s], resp. occurs in [s], when characters are
    compared with [eq]. *)
Fixpoint prefix_with (eq : ascii -> ascii -> bool) (word s : string) : bool :=
  match word, s with
  | EmptyString, _ => true
  | String _ _, EmptyString => false
  | String c word', String d s' => eq c d && prefix_with eq word' s'
  end.

Fixpoint contains_with (eq : ascii -> ascii -> bool) (word s : string)
  : bool :=
  prefix_with eq word s ||
  match s with
  | EmptyString => false
  | String _ s' => contains_with eq word s'
  end.

(** The order of two rows on a column, read off the values: integers by
    [<=], strings by the order of their characters' codes. *)
Definition key_le (a : InstrumentedAttribute) (x y : Tag.t) : Prop :=
  match a with
  | Tag_id => String.leb (Tag.id x) (Tag.id y) = true
  | Tag_name => String.leb (Tag.name x) (Tag.name y) = true
  | Tag_created_at => Tag.created_at x <= Tag.created_at y
  | Tag_updated_at => Tag.updated_at x <= Tag.updated_at y
  end.

(** Every row is at most, resp. at least, all the rows after it. *)
Fixpoint ascending (a : InstrumentedAttribute) (l : list Tag.t) : Prop :=
  match l with
  | [] => True
  | x :: l' => (forall y, In y l' -> key_le a x y) /\ ascending a l'
  end.

Fixpoint descending (a : InstrumentedAttribute) (l : list Tag.t) : Prop :=
  match l with
  | [] => True
  | x :: l' => (forall y, In y l' -> key_le a y x) /\ descending a l'
  end.

(** No two of the rows are equal on the column: the order of the rows on
    it leaves nothing to the engine. *)
Definition no_ties (a : InstrumentedAttribute) (l : list Tag.t) : Prop :=
  forall x y, In x l -> In y l -> Sql.compare_on a x y = Eq -> x = y.

(** The state at the start of a request: nothing is pending. *)
Definition clean (st : State) : Prop := session st = [].

(** The state [st] with the change [c] pending in the session. *)
Definition pending (c : change) (st : State) : State :=
  mkState (rows st) (session st ++ [c]) (log st).

(** The state [st] once its transaction is rolled back. *)
Definition rolled_back (st : State) : State :=
  mkState (rows st) [] (log st).

Definition logged (msg : string) (st : State) : State :=
  mkState (rows st) (session st) (log st ++ [msg]).

(** The error a lost connection raises at commit. *)
Definition connection_lost : DBAPIError :=
  mkError OperationalError "server has gone away" "e3q8".

(* ===================================================================== *)
(** * Properties *)
(* ===================================================================== *)

(** ** Sorting *)

Section SortFacts.
Context {A : Type} (le : A -> A -> bool).

Lemma insert_perm (x : A) (l : list A) :
  Permutation (Sql.insert le x l) (x :: l).
Proof.
  induction l as [|y l IH]; simpl; [reflexivity|].
  destruct (le x y); [reflexivity|].
  rewrite IH. apply perm_swap.
Qed.

Lemma sort_perm (l : list A) : Permutation (Sql.sort le l) l.
Proof.
  induction l as [|x l IH]; simpl; [reflexivity|].
  unfold Sql.sort in *. simpl. rewrite insert_perm. now constructor.
Qed.

Lemma sort_length (l : list A) : length (Sql.sort le l) = length l.
Proof. apply Permutation_length, sort_perm. Qed.

Lemma sort_In (x : A) (l : list A) : In x (Sql.sort le l) <-> In x l.
Proof.
  split; apply Permutation_in; [apply sort_perm | symmetry; apply sort_perm].
Qed.

Lemma insert_ordered (x : A) (l : list A) :
  (forall a b, le a b = false -> le b a = true) ->
  (forall a b c, le a b = true -> le b c = true -> le a c = true) ->
  Sql.ordered le l -> Sql.ordered le (Sql.insert le x l).
Proof.
  intros Htotal Htrans. induction l as [|y l IH]; simpl.
  - intros _. split; [intros ? []|exact I].
  - intros [Hy Hl]. destruct (le x y) eqn:Hxy; simpl.
    + split; [|now split].
      intros z [<-|Hz]; [assumption|]. eapply Htrans; eauto.
    + split; [|now apply IH].
      intros z Hz. apply (Permutation_in _ (insert_perm x l)) in Hz.
      destruct Hz as [<-|Hz]; [now apply Htotal|now apply Hy].
Qed.

Lemma sort_ordered (l : list A) :
  (forall a b, le a b = false -> le b a = true) ->
  (forall a b c, le a b = true -> le b c = true -> le a c = true) ->
  Sql.ordered le (Sql.sort le l).
Proof.
  intros Htotal Htrans. induction l as [|x l IH]; [exact I|].
  change (Sql.sort le (x :: l)) with (Sql.insert le x (Sql.sort le l)).
  now apply insert_ordered.
Qed.

End SortFacts.

(** ** ORDER BY ... ASC and DESC give sorted rows *)

Lemma string_compare_trans (s1 s2 s3 : string) :
  String.compare s1 s2 <> Gt -> String.compare s2 s3 <> Gt ->
  String.compare s1 s3 <> Gt.
Proof.
  revert s2 s3.
  induction s1 as [|c1 s1 IH]; intros [|c2 s2] [|c3 s3]; simpl;
    try congruence.
  unfold Ascii.compare.
  destruct (N.compare_spec (N_of_ascii c1) (N_of_ascii c2));
    destruct (N.compare_spec (N_of_ascii c2) (N_of_ascii c3));
    destruct (N.compare_spec (N_of_ascii c1) (N_of_ascii c3));
    try congruence; try lia.
  apply IH.
Qed.

Lemma compare_on_antisym (a : InstrumentedAttribute) (x y : Tag.t) :
  Sql.compare_on a y x = CompOpp (Sql.compare_on a x y).
Proof.
  destruct a; simpl;
    auto using String.compare_antisym, Z.compare_antisym.
Qed.

Lemma compare_on_trans (a : InstrumentedAttribute) (x y z : Tag.t) :
  Sql.compare_on a x y <> Gt -> Sql.compare_on a y z <> Gt ->
  Sql.compare_on a x z <> Gt.
Proof.
  destruct a; simpl; try apply string_compare_trans;
    rewrite !Z.compare_le_iff; lia.
Qed.

Lemma asc_le_spec (a : InstrumentedAttribute) (x y : Tag.t) :
  Sql.asc_le a x y = true <-> Sql.compare_on a x y <> Gt.
Proof. unfold Sql.asc_le. destruct (Sql.compare_on a x y); easy. Qed.

Lemma desc_le_spec (a : InstrumentedAttribute) (x y : Tag.t) :
  Sql.desc_le a x y = true <-> Sql.compare_on a y x <> Gt.
Proof.
  unfold Sql.desc_le. rewrite (compare_on_antisym a x y).
  destruct (Sql.compare_on a x y); easy.
Qed.

(** In the result of [ORDER BY a ASC] no row is followed by a row with a
    smaller value of [a]. *)
Lemma sort_asc_ordered (a : InstrumentedAttribute) (l : list Tag.t) :
  Sql.ordered (Sql.asc_le a) (Sql.sort (Sql.asc_le a) l).
Proof.
  apply sort_ordered.
  - intros x y Hxy. apply asc_le_spec. unfold Sql.asc_le in Hxy.
    rewrite (compare_on_antisym a x y).
    destruct (Sql.compare_on a x y); easy.
  - intros x y z. rewrite !asc_le_spec. apply compare_on_trans.
Qed.

(** In the result of [ORDER BY a DESC] no row is followed by a row with a
    greater value of [a]. *)
Lemma sort_desc_ordered (a : InstrumentedAttribute) (l : list Tag.t) :
  Sql.ordered (Sql.desc_le a) (Sql.sort (Sql.desc_le a) l).
Proof.
  apply sort_ordered.
  - intros x y Hxy. apply desc_le_spec. unfold Sql.desc_le in Hxy.
    destruct (Sql.compare_on a x y); easy.
  - intros x y z. rewrite !desc_le_spec. intros Hxy Hyz.
    now apply (compare_on_trans a z y x).
Qed.

(** ** Slices of a list *)

Lemma firstn_In {A : Type} (n : nat) (l : list A) (x : A) :
  In x (firstn n l) -> In x l.
Proof.
  intros H. rewrite <- (firstn_skipn n l). apply in_or_app. now left.
Qed.

Lemma skipn_In {A : Type} (n : nat) (l : list A) (x : A) :
  In x (skipn n l) -> In x l.
Proof.
  intros H. rewrite <- (firstn_skipn n l). apply in_or_app. now right.
Qed.

(** ** The list handler, stage by stage *)

Section ListHandler.
Variable P : Platform.

Lemma get_list (args : gmap string string) (table : list Tag.t)
  (a : InstrumentedAttribute) (e : UnaryExpression) (le : Tag.t -> Tag.t -> bool) :
  since_ok P args = true ->
  getattr_Tag (default "updated_at" (args !! "sort")) = Some a ->
  getattr_call a (default "desc" (args !! "direction")) = Some e ->
  Sql.ordering_of P e = inr le ->
  TagResource.get P args None table =
    paginate P (args !! "page") (args !! "pagesize")
      (Sql.sort le (filtered P args table)).
Proof.
  intros Hs Ha He Hle. unfold TagResource.get.
  set (q0 := match args !! "name" with
             | Some name => Query.filter (name_like ("%" +:+ name +:+ "%")) Query.Tag_query
             | None => Query.Tag_query
             end).
  assert (Hq : exists q, 
     match args !! "since" with
     | Some since =>
        match parse_isotime P since with
        | inl msg => inl (make_error_response 400 (Text msg) None)
        | inr since => inr (Query.filter (updated_at_ge since) q0)
        end
     | None => inr q0
     end = inr q /\ Query.ordering q = None /\ Query.offset_clause q = None
       /\ Query.limit_clause q = None
       /\ forall o off lim, Query.matching P (Query.mk (Query.criteria q) o off lim) table = filtered P args table).
  { unfold since_ok in Hs. subst q0. unfold filtered, satisfies_filters, Query.matching.
    destruct (args !! "name"), (args !! "since") as [since|]; simpl;
    try destruct (parse_isotime P since); simpl; try discriminate;
    eexists; (split; [reflexivity|]); simpl; repeat split; intros; apply filter_ext; intros tag; simpl;
    rewrite ?andb_true_r; reflexivity. }
  destruct Hq as (q & -> & Ho & Hoff & Hlim & Hm).
  rewrite Ha, He.
  assert (Hall : forall off lim,
    Query.all P (Query.mk (Query.criteria q) (Some e) off lim) table =
      let sorted := Sql.sort le (filtered P args table) in
      match match off with
            | Some n => Sql.offset P n sorted
            | None => inr sorted
            end with
      | inl ex => inl ex
      | inr skipped =>
          match lim with Some n => Sql.limit P n skipped | None => inr skipped end
      end).
  { intros off lim. unfold Query.all; simpl. unfold Sql.order_by.
    rewrite Hle, Hm. reflexivity. }
  unfold Query.count, Query.order_by, Query.limit, Query.offset, paginate.
  simpl. rewrite Hoff, Hlim, !Hall. simpl.
  destruct (PyStr.truthy (args !! "page") && PyStr.truthy (args !! "pagesize")).
  - destruct (PyStr.int (int_max_str_digits P)
                (default EmptyString (args !! "page"))) as [page|];
      [|reflexivity].
    destruct (PyStr.int (int_max_str_digits P)
                (default EmptyString (args !! "pagesize"))) as [pagesize|];
      [|reflexivity].
    rewrite Hall.
    replace (if (page - 1) * pagesize <? 0 then 0 else (page - 1) * pagesize)
      with (Z.max 0 ((page - 1) * pagesize))
      by (destruct (Z.ltb_spec ((page - 1) * pagesize) 0); lia).
    simpl.
    now destruct (Sql.offset P (Z.max 0 ((page - 1) * pagesize))
                    (Sql.sort le (filtered P args table))).
  - rewrite Hall. reflexivity.
Qed.

Lemma get_bad_since (args : gmap string string) (table : list Tag.t)
  (since msg : string) :
  args !! "since" = Some since ->
  parse_isotime P since = inl msg ->
  TagResource.get P args None table =
    inr (make_error_response 400 (Text msg) None).
Proof.
  intros Hs Hp. unfold TagResource.get. rewrite Hs, Hp. reflexivity.
Qed.

Lemma get_bad_sort (args : gmap string string) (table : list Tag.t) :
  since_ok P args = true ->
  getattr_Tag (default "updated_at" (args !! "sort")) = None ->
  TagResource.get P args None table =
    inr (make_error_response 400
           (Text ("Unknown sort "
                  +:+ PyStr.repr (default "updated_at" (args !! "sort")))) None).
Proof.
  unfold since_ok, TagResource.get. intros Hs Ha.
  destruct (args !! "since") as [since|];
    [destruct (parse_isotime P since); [discriminate|]|];
    rewrite Ha; reflexivity.
Qed.

Lemma get_bad_direction (args : gmap string string) (table : list Tag.t)
  (a : InstrumentedAttribute) :
  since_ok P args = true ->
  getattr_Tag (default "updated_at" (args !! "sort")) = Some a ->
  getattr_call a (default "desc" (args !! "direction")) = None ->
  TagResource.get P args None table =
    inr (make_error_response 400
           (Text ("Unknown direction "
                  +:+ PyStr.repr (default "desc" (args !! "direction")))) None).
Proof.
  unfold since_ok, TagResource.get. intros Hs Ha He.
  destruct (args !! "since") as [since|];
    [destruct (parse_isotime P since); [discriminate|]|];
    rewrite Ha, He; reflexivity.
Qed.

Lemma get_rejected_order (args : gmap string string) (table : list Tag.t)
  (a : InstrumentedAttribute) (e : UnaryExpression) (ex : DBAPIError) :
  since_ok P args = true ->
  getattr_Tag (default "updated_at" (args !! "sort")) = Some a ->
  getattr_call a (default "desc" (args !! "direction")) = Some e ->
  Sql.ordering_of P e = inl ex ->
  TagResource.get P args None table = inl ex.
Proof.
  unfold since_ok, TagResource.get. intros Hs Ha He Hle.
  destruct (args !! "since") as [since|];
    [destruct (parse_isotime P since); [discriminate|]|];
    rewrite Ha, He; unfold Query.count, Query.all; simpl;
    unfold Sql.order_by; rewrite Hle; reflexivity.
Qed.

(** A list of tags is only returned when every stage before the query
    accepted the request. *)
Lemma get_list_inv (args : gmap string string) (table tags : list Tag.t)
  (total : Z) :
  TagResource.get P args None table = inr (TagsBody tags total) ->
  exists a e le,
    since_ok P args = true /\
    getattr_Tag (default "updated_at" (args !! "sort")) = Some a /\
    getattr_call a (default "desc" (args !! "direction")) = Some e /\
    Sql.ordering_of P e = inr le.
Proof.
  intros H.
  destruct (since_ok P args) eqn:Hs.
  - destruct (getattr_Tag (default "updated_at" (args !! "sort")))
      as [a|] eqn:Ha.
    + destruct (getattr_call a (default "desc" (args !! "direction")))
        as [e|] eqn:He.
      * destruct (Sql.ordering_of P e) as [ex|le] eqn:Hle.
        -- rewrite (get_rejected_order _ _ _ _ _ Hs Ha He Hle) in H.
           discriminate.
        -- now exists a, e, le.
      * rewrite (get_bad_direction _ _ _ Hs Ha He) in H. discriminate.
    + rewrite (get_bad_sort _ _ Hs Ha) in H. discriminate.
  - unfold since_ok in Hs.
    destruct (args !! "since") as [since|] eqn:Hsi; [|discriminate].
    destruct (parse_isotime P since) as [msg|] eqn:Hp; [|discriminate].
    rewrite (get_bad_since _ _ _ _ Hsi Hp) in H. discriminate.
Qed.

(** ** Facts on the last stage *)

Lemma bind_integer_int64 (n : Z) :
  - 2 ^ 63 <= n < 2 ^ 63 -> Sql.bind_integer P n = None.
Proof.
  intros Hn. unfold Sql.bind_integer.
  destruct (Z.leb_spec (- 2 ^ 63) n); [|lia].
  destruct (Z.ltb_spec n (2 ^ 63)); [reflexivity|lia].
Qed.

Lemma offset_sublist (n : Z) (l skipped : list Tag.t) :
  Sql.offset P n l = inr skipped -> skipped `sublist_of` l.
Proof.
  unfold Sql.offset. destruct (Sql.bind_integer P n); [discriminate|].
  intros [= <-]. apply sublist_drop.
Qed.

Lemma limit_sublist (n : Z) (l tags : list Tag.t) :
  Sql.limit P n l = inr tags -> tags `sublist_of` l.
Proof.
  unfold Sql.limit. destruct (Sql.bind_integer P n); [discriminate|].
  destruct (n <? 0).
  - destruct (dialect_negative_limit P); intros [=]. now subst.
  - intros [= <-]. apply sublist_take.
Qed.

Lemma offset_int64 (n : Z) (l : list Tag.t) :
  0 <= n < 2 ^ 63 -> Sql.offset P n l = inr (skipn (Z.to_nat n) l).
Proof.
  intros Hn. unfold Sql.offset. now rewrite bind_integer_int64 by lia.
Qed.

Lemma limit_nonneg (n : Z) (l : list Tag.t) :
  0 <= n < 2 ^ 63 -> Sql.limit P n l = inr (firstn (Z.to_nat n) l).
Proof.
  intros Hn. unfold Sql.limit. rewrite bind_integer_int64 by lia.
  destruct (Z.ltb_spec n 0); [lia|reflexivity].
Qed.

(** A page is a part of the sorted rows, in their order, and carries the
    number of all of them. *)
Lemma paginate_inv (page pagesize : option string)
  (sorted tags : list Tag.t) (total : Z) :
  paginate P page pagesize sorted = inr (TagsBody tags total) ->
  total = Z.of_nat (length sorted) /\ tags `sublist_of` sorted.
Proof.
  unfold paginate.
  destruct (PyStr.truthy page && PyStr.truthy pagesize).
  - destruct (PyStr.int _ _); [|discriminate].
    destruct (PyStr.int _ _); [|discriminate].
    destruct (Sql.offset _ _ _) as [|skipped] eqn:Ho; [discriminate|].
    destruct (Sql.limit _ _ _) as [|l] eqn:Hl; [discriminate|].
    intros [= <- <-]. split; [reflexivity|].
    etransitivity; [exact (limit_sublist _ _ _ Hl)|].
    exact (offset_sublist _ _ _ Ho).
  - intros [= <- <-]. split; reflexivity.
Qed.

Lemma paginate_total (page pagesize : option string)
  (sorted tags : list Tag.t) (total : Z) :
  paginate P page pagesize sorted = inr (TagsBody tags total) ->
  total = Z.of_nat (length sorted).
Proof. intros H. now apply paginate_inv in H. Qed.

Lemma paginate_sublist (page pagesize : option string)
  (sorted tags : list Tag.t) (total : Z) :
  paginate P page pagesize sorted = inr (TagsBody tags total) ->
  tags `sublist_of` sorted.
Proof. intros H. now apply paginate_inv in H. Qed.

Lemma paginate_In (page pagesize : option string)
  (sorted tags : list Tag.t) (total : Z) (tag : Tag.t) :
  paginate P page pagesize sorted = inr (TagsBody tags total) ->
  In tag tags -> In tag sorted.
Proof.
  intros H Hin. apply paginate_sublist in H.
  apply list_elem_of_In. eapply elem_of_sublist; [|exact H].
  now apply list_elem_of_In.
Qed.

Lemma paginate_off (page pagesize : option string) (sorted : list Tag.t) :
  PyStr.truthy page && PyStr.truthy pagesize = false ->
  paginate P page pagesize sorted =
    inr (TagsBody sorted (Z.of_nat (length sorted))).
Proof. unfold paginate. now intros ->. Qed.

End ListHandler.

(** ** LIKE and substrings *)

Section Like.
Variable eq : ascii -> ascii -> bool.

Lemma like_percent (p s : string) :
  Sql.like eq (String "%" p) s =
    Sql.like eq p s ||
    match s with
    | EmptyString => false
    | String _ s' => Sql.like eq (String "%" p) s'
    end.
Proof. destruct s; reflexivity. Qed.

Lemma like_percent_only (s : string) : Sql.like eq "%" s = true.
Proof.
  induction s as [|c s IH]; [reflexivity|].
  rewrite like_percent, IH. apply orb_true_r.
Qed.

Lemma like_literal_prefix (n s : string) :
  literal n = true ->
  Sql.like eq (n +:+ "%") s = prefix_with eq n s.
Proof.
  revert s. induction n as [|c n IH]; intros s Hn.
  - simpl String.append. rewrite like_percent_only. now destruct s.
  - simpl in Hn. apply andb_true_iff in Hn as [Hc Hn].
    apply andb_true_iff in Hc as [Hc _].
    apply andb_true_iff in Hc as [Hp Hu].
    apply negb_true_iff in Hp, Hu.
    simpl. rewrite Hp. destruct s as [|d s]; [reflexivity|].
    now rewrite Hu, (IH s Hn).
Qed.

Lemma like_contains_with (n s : string) :
  literal n = true ->
  Sql.like eq ("%" +:+ n +:+ "%") s = contains_with eq n s.
Proof.
  intros Hn. change ("%" +:+ n +:+ "%") with (String "%" (n +:+ "%")).
  induction s as [|c s IH].
  - rewrite like_percent, like_literal_prefix by assumption.
    simpl. now rewrite orb_false_r.
  - rewrite like_percent, like_literal_prefix, IH by assumption.
    reflexivity.
Qed.

(** With a collation that tells all characters apart, occurring is being a
    substring. *)
Lemma prefix_with_binary (n s : string) :
  (forall c d, eq c d = Ascii.eqb c d) ->
  prefix_with eq n s = String.prefix n s.
Proof.
  intros Heq. revert s. induction n as [|c n IH]; intros [|d s]; simpl;
    try reflexivity.
  rewrite Heq, IH. destruct (Ascii.ascii_dec c d) as [->|Hne].
  - now rewrite Ascii.eqb_refl.
  - apply Ascii.eqb_neq in Hne. now rewrite Hne.
Qed.

Lemma contains_with_binary (n s : string) :
  (forall c d, eq c d = Ascii.eqb c d) ->
  contains_with eq n s = PyStr.contains n s.
Proof.
  intros Heq. induction s as [|c s IH].
  - cbn [contains_with PyStr.contains]. now rewrite prefix_with_binary.
  - cbn [contains_with PyStr.contains]. now rewrite prefix_with_binary, IH.
Qed.

End Like.

(** ** Claims on the list handler *)

(** C1: the [total] of a successful list response is the number of rows
    that pass the name and since filters, counted before pagination; any
    request that differs only in [page] and [pagesize] reports the same
    total. *)
Theorem total_counts_filtered_rows (P : Platform)
  (args : gmap string string) (table tags : list Tag.t) (total : Z) :
  TagResource.get P args None table = inr (TagsBody tags total) ->
  total = Z.of_nat (length (filtered P args table)) /\
  forall (args' : gmap string string) (tags' : list Tag.t) (total' : Z),
    (forall k, k <> "page" -> k <> "pagesize" -> args' !! k = args !! k) ->
    TagResource.get P args' None table = inr (TagsBody tags' total') ->
    total' = total.
Proof.
  assert (Hcount : forall args0 tags0 total0,
    TagResource.get P args0 None table = inr (TagsBody tags0 total0) ->
    total0 = Z.of_nat (length (filtered P args0 table))).
  { intros args0 tags0 total0 H.
    destruct (get_list_inv P _ _ _ _ H) as (a & e & le & Hs & Ha & He & Hle).
    rewrite (get_list P _ _ _ _ _ Hs Ha He Hle) in H.
    apply paginate_total in H. now rewrite sort_length in H. }
  intros H. split; [now apply Hcount in H|].
  intros args' tags' total' Hsame H'.
  apply Hcount in H, H'. subst.
  unfold filtered, satisfies_filters.
  rewrite !(Hsame "name"), !(Hsame "since") by discriminate. reflexivity.
Qed.

Lemma total_counts_filtered_rows_witness :
  let args : gmap string string :=
    <["name" := "b"]> (<["page" := "2"]> (<["pagesize" := "1"]> ∅)) in
  3 = Z.of_nat (length (filtered example_platform args example_table)) /\
  forall (args' : gmap string string) (tags' : list Tag.t) (total' : Z),
    (forall k, k <> "page" -> k <> "pagesize" -> args' !! k = args !! k) ->
    TagResource.get example_platform args' None example_table
      = inr (TagsBody tags' total') ->
    total' = 3.
Proof.
  apply (total_counts_filtered_rows example_platform _ example_table
           [Tag.mk "3" "a_b" 30 20] 3).
  vm_compute. reflexivity.
Defined.

(** C4, as the code has it: with a [name] parameter, every returned tag is
    a stored tag whose name matches the LIKE pattern [%name%] under the
    collation of the engine; without [since] and without pagination the
    returned tags are exactly those; when [name] holds no [%], no [_] and
    no backslash, matching the pattern is holding [name] as a run of
    characters that the collation takes for the same, which is holding it as
    a case-sensitive substring when the collation tells all characters
    apart. *)
Theorem name_filter_is_like_pattern (P : Platform)
  (args : gmap string string) (table tags : list Tag.t) (total : Z)
  (name : string) :
  args !! "name" = Some name ->
  TagResource.get P args None table = inr (TagsBody tags total) ->
  let matches tag :=
    Sql.like (collation_eq P) ("%" +:+ name +:+ "%") (Tag.name tag) in
  (forall tag, In tag tags -> In tag table /\ matches tag = true) /\
  (args !! "since" = None ->
   PyStr.truthy (args !! "page") && PyStr.truthy (args !! "pagesize") = false ->
   Permutation tags (List.filter matches table)) /\
  (literal name = true ->
   forall tag,
     matches tag = contains_with (collation_eq P) name (Tag.name tag)) /\
  (literal name = true ->
   (forall c d, collation_eq P c d = Ascii.eqb c d) ->
   forall tag, matches tag = PyStr.contains name (Tag.name tag)).
Proof.
  intros Hname H matches.
  destruct (get_list_inv P _ _ _ _ H) as (a & e & le & Hs & Ha & He & Hle).
  rewrite (get_list P _ _ _ _ _ Hs Ha He Hle) in H.
  split; [|split; [|split]].
  - intros tag Hin. apply (paginate_In P _ _ _ _ _ _ H) in Hin.
    apply sort_In in Hin. unfold filtered in Hin.
    apply filter_In in Hin as [Hin Hf]. split; [assumption|].
    unfold satisfies_filters in Hf. rewrite Hname in Hf.
    now apply andb_true_iff in Hf as [Hf _].
  - intros Hsince Hoff. rewrite (paginate_off P _ _ _ Hoff) in H.
    injection H as <- _. rewrite sort_perm.
    unfold filtered, satisfies_filters. rewrite Hname, Hsince.
    erewrite filter_ext; [reflexivity|].
    intros tag. apply andb_true_r.
  - intros Hn tag. now apply like_contains_with.
  - intros Hn Heq tag. unfold matches.
    rewrite like_contains_with by assumption.
    now apply contains_with_binary.
Qed.

Lemma name_filter_is_like_pattern_witness :
  let matches tag := Sql.like Ascii.eqb "%b%" (Tag.name tag) in
  (forall tag, In tag example_table -> In tag example_table /\ matches tag = true)
  /\ (Permutation example_table (List.filter matches example_table))
  /\ (forall tag, matches tag = PyStr.contains "b" (Tag.name tag)).
Proof.
  pose proof (name_filter_is_like_pattern example_platform
                (<["name" := "b"]> (<["sort" := "id"]> (<["direction" := "asc"]> ∅)))
                example_table example_table 3 "b" eq_refl eq_refl)
    as (H1 & H2 & _ & H3).
  split; [exact H1|]. split; [exact (H2 eq_refl eq_refl)|].
  exact (H3 eq_refl (fun c d => eq_refl)).
Defined.

(** C4, as it is worded, fails twice. The request [name=_] returns the tag
    [db], whose name holds no underscore: [_] is a wildcard. And with a
    collation that is blind to case, the request [name=B] returns the three
    tags [db], [web] and [a_b], none of which holds a capital B. *)
Lemma name_substring_counterexample :
  (TagResource.get example_platform (<["name" := "_"]> ∅) None
     [Tag.mk "1" "db" 10 10]
   = inr (TagsBody [Tag.mk "1" "db" 10 10] 1)
   /\ PyStr.contains "_" "db" = false)
  /\ (TagResource.get nocase_platform (<["name" := "B"]> ∅) None example_table
      = inr (TagsBody [Tag.mk "2" "web" 20 30; Tag.mk "3" "a_b" 30 20;
                       Tag.mk "1" "db" 10 10] 3)
      /\ forallb (fun tag => negb (PyStr.contains "B" (Tag.name tag)))
           example_table = true).
Proof. repeat split. Qed.

Lemma int_truthy (limit : option nat) (s : string) (n : Z) :
  PyStr.int limit s = Some n -> PyStr.truthy (Some s) = true.
Proof. destruct s; [now destruct limit|reflexivity]. Qed.

Lemma asc_le_key_le (a : InstrumentedAttribute) (x y : Tag.t) :
  Sql.asc_le a x y = true -> key_le a x y.
Proof.
  unfold Sql.asc_le, key_le, String.leb. destruct a; simpl;
    try (now destruct (String.compare _ _));
    destruct (Z.compare_spec (Tag.created_at x) (Tag.created_at y));
    destruct (Z.compare_spec (Tag.updated_at x) (Tag.updated_at y));
    intros; try discriminate; lia.
Qed.

Lemma desc_le_key_le (a : InstrumentedAttribute) (x y : Tag.t) :
  Sql.desc_le a x y = true -> key_le a y x.
Proof.
  intros H. apply asc_le_key_le, asc_le_spec. now apply desc_le_spec.
Qed.

Lemma ordered_ascending (a : InstrumentedAttribute) (l : list Tag.t) :
  Sql.ordered (Sql.asc_le a) l -> ascending a l.
Proof.
  induction l as [|x l IH]; simpl; [trivial|].
  intros [Hx Hl]. split; [|now apply IH].
  intros y Hy. now apply asc_le_key_le, Hx.
Qed.

Lemma ordered_descending (a : InstrumentedAttribute) (l : list Tag.t) :
  Sql.ordered (Sql.desc_le a) l -> descending a l.
Proof.
  induction l as [|x l IH]; simpl; [trivial|].
  intros [Hx Hl]. split; [|now apply IH].
  intros y Hy. now apply desc_le_key_le, Hx.
Qed.

(** What [ORDER BY] gives for the two directions the claims speak of. *)
Lemma ordering_sorted (P : Platform) (a : InstrumentedAttribute)
  (e : UnaryExpression) (le : Tag.t -> Tag.t -> bool) (direction : string)
  (l : list Tag.t) :
  getattr_call a direction = Some e ->
  Sql.ordering_of P e = inr le ->
  Permutation (Sql.sort le l) l
  /\ (direction = "asc" -> ascending a (Sql.sort le l))
  /\ (direction = "desc" -> descending a (Sql.sort le l))
  /\ (modifier e = asc_op -> ascending a (Sql.sort le l))
  /\ (modifier e = desc_op -> descending a (Sql.sort le l)).
Proof.
  intros He Hle. split; [apply sort_perm|].
  assert (Hasc : modifier e = asc_op -> ascending a (Sql.sort le l)).
  { intros Hm. unfold getattr_call in He.
    destruct e as [a' m]. simpl in Hm. subst m.
    apply fmap_Some in He as (m & _ & [= <- _]).
    injection Hle as <-. apply ordered_ascending, sort_asc_ordered. }
  assert (Hdesc : modifier e = desc_op -> descending a (Sql.sort le l)).
  { intros Hm. unfold getattr_call in He.
    destruct e as [a' m]. simpl in Hm. subst m.
    apply fmap_Some in He as (m & _ & [= <- _]).
    injection Hle as <-. apply ordered_descending, sort_desc_ordered. }
  repeat split; try assumption.
  - intros ->. apply Hasc. now injection He as <-.
  - intros ->. apply Hdesc. now injection He as <-.
Qed.

(** C7, as the code has it: with integer [page] and [pagesize], a
    [pagesize] that is not negative, and an offset and a [pagesize] within
    64 bits, the rows a list request returns are the filtered rows, sorted
    in the direction asked for, from offset [(page - 1) * pagesize] (0 when
    negative), at most [pagesize] of them, and the total is that of all
    filtered rows; they are returned once the filters and the ordering are
    accepted. With 25 rows, page 1 of size 10 holds rows 1 to 10 and page 3
    holds the five rows 21 to 25. *)
Theorem pagination_window (P : Platform) (args : gmap string string)
  (table : list Tag.t) (page_s pagesize_s : string) (page pagesize : Z) :
  args !! "page" = Some page_s ->
  args !! "pagesize" = Some pagesize_s ->
  PyStr.int (int_max_str_digits P) page_s = Some page ->
  PyStr.int (int_max_str_digits P) pagesize_s = Some pagesize ->
  0 <= pagesize < 2 ^ 63 ->
  Z.max 0 ((page - 1) * pagesize) < 2 ^ 63 ->
  let total := Z.of_nat (length (filtered P args table)) in
  (forall tags total',
     TagResource.get P args None table = inr (TagsBody tags total') ->
     exists a sorted,
       getattr_Tag (default "updated_at" (args !! "sort")) = Some a
       /\ Permutation sorted (filtered P args table)
       /\ (default "desc" (args !! "direction") = "asc" ->
           ascending a sorted)
       /\ (default "desc" (args !! "direction") = "desc" ->
           descending a sorted)
       /\ total' = total
       /\ tags = window page pagesize sorted)
  /\ (forall a e le,
        since_ok P args = true ->
        getattr_Tag (default "updated_at" (args !! "sort")) = Some a ->
        getattr_call a (default "desc" (args !! "direction")) = Some e ->
        Sql.ordering_of P e = inr le ->
        exists sorted,
          Permutation sorted (filtered P args table)
          /\ (modifier e = asc_op -> ascending a sorted)
          /\ (modifier e = desc_op -> descending a sorted)
          /\ TagResource.get P args None table =
               inr (TagsBody (window page pagesize sorted) total)
          /\ (total = 25 -> page = 1 -> pagesize = 10 ->
              TagResource.get P args None table
                = inr (TagsBody (firstn 10 sorted) 25))
          /\ (total = 25 -> page = 3 -> pagesize = 10 ->
              TagResource.get P args None table
                = inr (TagsBody (skipn 20 sorted) 25)
              /\ length (skipn 20 sorted) = 5%nat)).
Proof.
  intros Hp Hps Hip Hips Hsize Hoff total.
  assert (Hget : forall a e le,
    since_ok P args = true ->
    getattr_Tag (default "updated_at" (args !! "sort")) = Some a ->
    getattr_call a (default "desc" (args !! "direction")) = Some e ->
    Sql.ordering_of P e = inr le ->
    TagResource.get P args None table =
      inr (TagsBody (window page pagesize (Sql.sort le (filtered P args table)))
             total)).
  { intros a e le Hs Ha He Hle.
    rewrite (get_list P _ _ _ _ _ Hs Ha He Hle). unfold paginate.
    rewrite Hp, Hps, (int_truthy _ _ _ Hip), (int_truthy _ _ _ Hips).
    simpl. rewrite Hip, Hips.
    rewrite offset_int64, limit_nonneg by lia.
    unfold total. now rewrite sort_length. }
  split.
  - intros tags total' H.
    destruct (get_list_inv P _ _ _ _ H) as (a & e & le & Hs & Ha & He & Hle).
    rewrite (Hget a e le Hs Ha He Hle) in H. injection H as <- <-.
    destruct (ordering_sorted P a e le _ (filtered P args table) He Hle)
      as (Hperm & Hasc & Hdesc & _).
    exists a, (Sql.sort le (filtered P args table)).
    repeat (split; [assumption || reflexivity|]). reflexivity.
  - intros a e le Hs Ha He Hle.
    destruct (ordering_sorted P a e le _ (filtered P args table) He Hle)
      as (Hperm & _ & _ & Hasc & Hdesc).
    set (sorted := Sql.sort le (filtered P args table)) in *.
    pose proof (Hget a e le Hs Ha He Hle) as Hwin. fold sorted in Hwin.
    exists sorted. repeat (split; [assumption|]). split.
    + intros Ht -> ->. rewrite Hwin, Ht. reflexivity.
    + intros Ht -> ->. rewrite Hwin, Ht.
      assert (Hlen : length sorted = 25%nat).
      { subst sorted. rewrite sort_length. unfold total in Ht. lia. }
      assert (Hlen' : length (skipn 20 sorted) = 5%nat).
      { rewrite length_skipn, Hlen. reflexivity. }
      split; [|exact Hlen'].
      unfold window. change (Z.to_nat (Z.max 0 ((3 - 1) * 10))) with 20%nat.
      rewrite firstn_all2; [reflexivity|]. rewrite Hlen'. simpl. lia.
Qed.

Lemma pagination_window_witness :
  let args : gmap string string :=
    <["page" := "3"]> (<["pagesize" := "10"]> (<["direction" := "asc"]> ∅)) in
  exists sorted,
    Permutation sorted (filtered example_platform args example_rows)
    /\ ascending Tag_updated_at sorted
    /\ TagResource.get example_platform args None example_rows
       = inr (TagsBody (skipn 20 sorted) 25)
    /\ length (skipn 20 sorted) = 5%nat.
Proof.
  pose proof (pagination_window example_platform
    (<["page" := "3"]> (<["pagesize" := "10"]> (<["direction" := "asc"]> ∅)))
    example_rows "3" "10" 3 10 eq_refl eq_refl eq_refl eq_refl
    ltac:(lia) ltac:(lia))
    as (_ & Hret).
  destruct (Hret Tag_updated_at (mkUnary Tag_updated_at asc_op)
              (Sql.asc_le Tag_updated_at) eq_refl eq_refl eq_refl eq_refl)
    as (sorted & Hperm & Hasc & _ & _ & _ & H).
  exists sorted. split; [exact Hperm|]. split; [exact (Hasc eq_refl)|].
  exact (H eq_refl eq_refl eq_refl).
Defined.

(** C7, as it is worded, fails where [pagesize] is negative or beyond 64
    bits. [page=1&pagesize=-1] is a request with integer values; the engine
    reads [LIMIT -1] as no limit and all three rows are returned. And
    [pagesize=9223372036854775808] makes the driver raise [OverflowError],
    which leaves the handler. *)
Lemma pagination_limit_counterexample :
  (PyStr.int None "-1" = Some (-1)
   /\ TagResource.get example_platform
        (<["page" := "1"]> (<["pagesize" := "-1"]> ∅)) None example_table
      = inr (TagsBody [Tag.mk "2" "web" 20 30; Tag.mk "3" "a_b" 30 20;
                       Tag.mk "1" "db" 10 10] 3))
  /\ (PyStr.int None "9223372036854775808" = Some (2 ^ 63)
      /\ exists ex,
           error_cls ex = OverflowError
           /\ TagResource.get example_platform
                (<["page" := "1"]> (<["pagesize" := "9223372036854775808"]> ∅))
                None example_table
              = inl ex).
Proof.
  split; [split; reflexivity|]. split; [reflexivity|].
  eexists. split; [|reflexivity]. reflexivity.
Qed.

Lemma get_same_stages (P : Platform) (args args' : gmap string string)
  (table : list Tag.t) :
  (forall k, k <> "page" -> k <> "pagesize" -> args' !! k = args !! k) ->
  PyStr.truthy (args !! "page") && PyStr.truthy (args !! "pagesize") = false ->
  PyStr.truthy (args' !! "page") && PyStr.truthy (args' !! "pagesize") = false ->
  TagResource.get P args' None table = TagResource.get P args None table.
Proof.
  intros Hsame Hoff Hoff'.
  assert (Hname := Hsame "name" ltac:(discriminate) ltac:(discriminate)).
  assert (Hsince := Hsame "since" ltac:(discriminate) ltac:(discriminate)).
  assert (Hsort := Hsame "sort" ltac:(discriminate) ltac:(discriminate)).
  assert (Hdir := Hsame "direction" ltac:(discriminate) ltac:(discriminate)).
  assert (Hok : since_ok P args' = since_ok P args)
    by (unfold since_ok; now rewrite Hsince).
  assert (Hf : filtered P args' table = filtered P args table)
    by (unfold filtered, satisfies_filters; now rewrite Hname, Hsince).
  destruct (since_ok P args) eqn:Hs.
  - destruct (getattr_Tag (default "updated_at" (args !! "sort")))
      as [a|] eqn:Ha.
    + destruct (getattr_call a (default "desc" (args !! "direction")))
        as [e|] eqn:He.
      * destruct (Sql.ordering_of P e) as [ex|le] eqn:Hle.
        -- rewrite (get_rejected_order P args _ _ _ _ Hs Ha He Hle).
           apply (get_rejected_order P args' _ a e); try assumption.
           ++ now rewrite Hsort.
           ++ now rewrite Hdir.
        -- rewrite (get_list P args _ _ _ _ Hs Ha He Hle).
           rewrite (get_list P args' _ a e le); try assumption.
           ++ now rewrite !paginate_off, Hf by assumption.
           ++ now rewrite Hsort.
           ++ now rewrite Hdir.
      * rewrite (get_bad_direction P args _ _ Hs Ha He).
        rewrite (get_bad_direction P args' _ a); try assumption.
        ++ now rewrite Hdir.
        ++ now rewrite Hsort.
        ++ now rewrite Hdir.
    + rewrite (get_bad_sort P args _ Hs Ha).
      rewrite (get_bad_sort P args'); try assumption.
      * now rewrite Hsort.
      * now rewrite Hsort.
  - unfold since_ok in Hs.
    destruct (args !! "since") as [since|] eqn:Hsi; [|discriminate].
    destruct (parse_isotime P since) as [msg|] eqn:Hp; [|discriminate].
    rewrite (get_bad_since P args _ _ _ Hsi Hp).
    apply (get_bad_since P args' _ since); [now rewrite Hsince|assumption].
Qed.

(** C9: when [page] or [pagesize] is missing or empty, the other one is
    not looked at, whatever it holds: the answer is that of the request
    without them; it is the list of all filtered and sorted rows once the
    filters and the ordering are accepted; and an error response can then
    only come from [since], [sort] or [direction]. *)
Theorem no_pagination_unless_both (P : Platform) (args : gmap string string)
  (table : list Tag.t) :
  PyStr.truthy (args !! "page") && PyStr.truthy (args !! "pagesize") = false ->
  TagResource.get P args None table
    = TagResource.get P (without_pagination args) None table
  /\ (forall a e le,
        since_ok P args = true ->
        getattr_Tag (default "updated_at" (args !! "sort")) = Some a ->
        getattr_call a (default "desc" (args !! "direction")) = Some e ->
        Sql.ordering_of P e = inr le ->
        TagResource.get P args None table =
          inr (TagsBody (Sql.sort le (filtered P args table))
                        (Z.of_nat (length (filtered P args table))))
        /\ status_of (TagsBody (Sql.sort le (filtered P args table))
                        (Z.of_nat (length (filtered P args table)))) = 200)
  /\ (forall status msg error_code,
        TagResource.get P args None table
          = inr (ErrorResponse status msg error_code) ->
        since_ok P args = false
        \/ getattr_Tag (default "updated_at" (args !! "sort")) = None
        \/ exists a,
             getattr_Tag (default "updated_at" (args !! "sort")) = Some a
             /\ getattr_call a (default "desc" (args !! "direction")) = None).
Proof.
  intros Hoff. split; [|split].
  - symmetry. apply get_same_stages; [| assumption |].
    + intros k Hk1 Hk2. unfold without_pagination.
      rewrite !lookup_delete_ne by congruence. reflexivity.
    + unfold without_pagination. now rewrite lookup_delete_eq.
  - intros a e le Hs Ha He Hle. split; [|reflexivity].
    rewrite (get_list P _ _ _ _ _ Hs Ha He Hle), paginate_off by assumption.
    now rewrite sort_length.
  - intros status msg error_code H.
    destruct (since_ok P args) eqn:Hs; [|now left]. right.
    destruct (getattr_Tag (default "updated_at" (args !! "sort")))
      as [a|] eqn:Ha; [|now left]. right. exists a. split; [reflexivity|].
    destruct (getattr_call a (default "desc" (args !! "direction")))
      as [e|] eqn:He; [|reflexivity]. exfalso.
    destruct (Sql.ordering_of P e) as [ex|le] eqn:Hle.
    + rewrite (get_rejected_order P _ _ _ _ _ Hs Ha He Hle) in H. discriminate.
    + rewrite (get_list P _ _ _ _ _ Hs Ha He Hle), paginate_off in H
        by assumption. discriminate.
Qed.

Lemma no_pagination_unless_both_witness :
  let args : gmap string string := <["page" := "abc"]> ∅ in
  TagResource.get example_platform args None example_table
    = TagResource.get example_platform (without_pagination args) None
        example_table
  /\ TagResource.get example_platform args None example_table
    = inr (TagsBody [Tag.mk "2" "web" 20 30; Tag.mk "3" "a_b" 30 20;
                     Tag.mk "1" "db" 10 10] 3).
Proof.
  pose proof (no_pagination_unless_both example_platform
                (<["page" := "abc"]> ∅) example_table eq_refl)
    as (Hsame & Hall & _).
  split; [exact Hsame|].
  exact (proj1 (Hall Tag_updated_at (mkUnary Tag_updated_at desc_op)
                  (Sql.desc_le Tag_updated_at)
                  eq_refl eq_refl eq_refl eq_refl)).
Defined.

(** Two requests that agree on what the handler reads get the same
    answer. *)
Lemma get_ext (P : Platform) (args args' : gmap string string)
  (table : list Tag.t) :
  args' !! "name" = args !! "name" ->
  args' !! "since" = args !! "since" ->
  default "updated_at" (args' !! "sort") = default "updated_at" (args !! "sort") ->
  default "desc" (args' !! "direction") = default "desc" (args !! "direction") ->
  args' !! "page" = args !! "page" ->
  args' !! "pagesize" = args !! "pagesize" ->
  TagResource.get P args' None table = TagResource.get P args None table.
Proof.
  intros H1 H2 H3 H4 H5 H6. unfold TagResource.get.
  rewrite H1, H2, H3, H4, H5, H6. reflexivity.
Qed.

(** The parts of C6 the handler fulfils: an unknown [sort] and a
    [direction] that does not resolve are answered by 400 (once [since] is
    accepted), and the defaults are [updated_at] and [desc]. *)
Lemma sort_direction_checks (P : Platform) (args : gmap string string)
  (table : list Tag.t) :
  (forall sort, since_ok P args = true ->
     args !! "sort" = Some sort -> getattr_Tag sort = None ->
     TagResource.get P args None table =
       inr (make_error_response 400
              (Text ("Unknown sort " +:+ PyStr.repr sort)) None))
  /\ (forall a direction, since_ok P args = true ->
        getattr_Tag (default "updated_at" (args !! "sort")) = Some a ->
        args !! "direction" = Some direction ->
        getattr_call a direction = None ->
        TagResource.get P args None table =
          inr (make_error_response 400
                 (Text ("Unknown direction " +:+ PyStr.repr direction)) None))
  /\ (args !! "sort" = None ->
      TagResource.get P args None table =
        TagResource.get P (<["sort" := "updated_at"]> args) None table)
  /\ (args !! "direction" = None ->
      TagResource.get P args None table =
        TagResource.get P (<["direction" := "desc"]> args) None table).
Proof.
  split; [|split; [|split]].
  - intros sort Hs Hsort Hnone.
    rewrite (get_bad_sort P _ _ Hs); rewrite Hsort; [reflexivity|assumption].
  - intros a direction Hs Ha Hd Hnone.
    rewrite (get_bad_direction P _ _ _ Hs Ha); rewrite Hd;
      [reflexivity|assumption].
  - intros Hsort. symmetry.
    apply get_ext; rewrite ?lookup_insert_ne by discriminate; try reflexivity.
    now rewrite lookup_insert_eq, Hsort.
  - intros Hd. symmetry.
    apply get_ext; rewrite ?lookup_insert_ne by discriminate; try reflexivity.
    now rewrite lookup_insert_eq, Hd.
Qed.

(** C6, where the handler departs from it: [direction=nullsfirst] is neither
    [asc] nor [desc], and yet it is not answered by 400: the handler hands
    [ORDER BY updated_at NULLS FIRST] to the engine. *)
Theorem direction_nullsfirst_not_rejected (P : Platform) (table : list Tag.t) :
  TagResource.get P (<["direction" := "nullsfirst"]> ∅) None table =
    match dialect_order P nullsfirst_op Tag_updated_at with
    | inl ex => inl ex
    | inr le => inr (TagsBody (Sql.sort le table) (Z.of_nat (length table)))
    end
  /\ TagResource.get P (<["direction" := "nullsfirst"]> ∅) None table
     <> inr (make_error_response 400
               (Text ("Unknown direction " +:+ PyStr.repr "nullsfirst")) None)
  /\ TagResource.get example_platform (<["direction" := "nullsfirst"]> ∅)
       None example_table
     = inr (TagsBody [Tag.mk "1" "db" 10 10; Tag.mk "3" "a_b" 30 20;
                      Tag.mk "2" "web" 20 30] 3).
Proof.
  assert (H : TagResource.get P (<["direction" := "nullsfirst"]> ∅) None table =
    match dialect_order P nullsfirst_op Tag_updated_at with
    | inl ex => inl ex
    | inr le => inr (TagsBody (Sql.sort le table) (Z.of_nat (length table)))
    end).
  { destruct (dialect_order P nullsfirst_op Tag_updated_at) as [ex|le] eqn:Hd.
    - now apply (get_rejected_order P _ _ Tag_updated_at
                   (mkUnary Tag_updated_at nullsfirst_op)).
    - rewrite (get_list P _ _ Tag_updated_at
                 (mkUnary Tag_updated_at nullsfirst_op) le); try easy.
      rewrite paginate_off by reflexivity.
      assert (Hf : filtered P (<["direction" := "nullsfirst"]> ∅) table = table).
      { unfold filtered, satisfies_filters.
        change ((<["direction" := "nullsfirst"]> ∅ : gmap string string) !! "name")
          with (@None string).
        change ((<["direction" := "nullsfirst"]> ∅ : gmap string string) !! "since")
          with (@None string).
        simpl. induction table as [|t l IH]; simpl; congruence. }
      now rewrite Hf, sort_length. }
  split; [exact H|]. split; [|reflexivity]. rewrite H.
  destruct (dialect_order P nullsfirst_op Tag_updated_at); discriminate.
Qed.

(** ** The mutating handlers *)


Lemma commit_clean (P : Platform) (ctx : Ctx) (st : State) :
  clean st -> fault ctx = None -> session_commit P ctx st = (inr tt, st).
Proof.
  unfold clean, session_commit. destruct st as [table pend l]; simpl.
  now intros -> ->.
Qed.

(** A failed commit leaves the table as it was. *)
Lemma commit_rows (P : Platform) (ctx : Ctx) (st : State) :
  clean st -> rows (snd (session_commit P ctx st)) = rows st.
Proof.
  unfold clean, session_commit. intros Hc.
  destruct (fault ctx); [reflexivity|]. now rewrite Hc.
Qed.

Lemma on_integrity_error_duplicate (ex : DBAPIError) (st : State) :
  TagResource.is_duplicate (orig ex) = true ->
  TagResource.on_integrity_error ex st =
    (inr (make_error_response 409 (Text (orig ex)) None), rolled_back st).
Proof.
  intros H. unfold TagResource.on_integrity_error, bind, session_rollback.
  now rewrite H.
Qed.

Lemma on_integrity_error_other (ex : DBAPIError) (st : State) :
  TagResource.is_duplicate (orig ex) = false ->
  TagResource.on_integrity_error ex st =
    (inr (make_error_response 500 (Text "DB Error") (Some (code ex))),
     logged "An unknown db error occurred" (rolled_back st)).
Proof.
  intros H. unfold TagResource.on_integrity_error, bind, session_rollback.
  now rewrite H.
Qed.

Lemma post_valid (P : Platform) (ctx : Ctx) (body : gmap string json)
  (name : string) (st : State) :
  Schema.CreateTagSchema_load body = inr name ->
  TagResource.post P ctx body st =
    match session_commit P ctx (pending (Insert name) st) with
    | (inl ex, st') =>
        if isinstance_IntegrityError ex
        then TagResource.on_integrity_error ex st' else (inl ex, st')
    | (inr _, st') => (inr (TagBody (inserted ctx name)), st')
    end.
Proof.
  intros H. unfold TagResource.post. rewrite H.
  unfold try_except_else, bind, session_add. fold (pending (Insert name) st).
  now destruct (session_commit P ctx (pending (Insert name) st)) as [[ex|[]] st'].
Qed.

Lemma put_valid (P : Platform) (ctx : Ctx) (tag_id : string)
  (body : gmap string json) (data : option string) (tag : Tag.t) (st : State) :
  Schema.UpdateTagSchema_load body = inr data ->
  Query.get tag_id (rows st) = Some tag ->
  TagResource.put P ctx tag_id body st =
    match Tag_update P ctx tag data st with
    | (inl ex, st') =>
        if isinstance_IntegrityError ex
        then TagResource.on_integrity_error ex st' else (inl ex, st')
    | (inr _, st') =>
        (inr (TagBody (default tag (Query.get tag_id (rows st')))), st')
    end.
Proof.
  intros H Hget. unfold TagResource.put. rewrite H.
  unfold bind at 1. unfold Tag_query_get at 1. rewrite Hget.
  unfold try_except_else.
  now destruct (Tag_update P ctx tag data st) as [[ex|[]] st'].
Qed.

Lemma delete_found (P : Platform) (ctx : Ctx) (tag_id : string)
  (tag : Tag.t) (st : State) :
  Query.get tag_id (rows st) = Some tag ->
  TagResource.delete P ctx tag_id st =
    match session_commit P ctx (pending (Remove (Tag.id tag)) st) with
    | (inl ex, st') =>
        if isinstance_DatabaseError ex
        then (inr (make_error_response 500 (Text "DB Error") (Some (code ex))),
              logged "An unknown db error occurred" st')
        else (inl ex, st')
    | (inr _, st') => (inr NoContent, st')
    end.
Proof.
  intros Hget. unfold TagResource.delete, bind at 1.
  unfold Tag_query_get at 1. rewrite Hget.
  unfold try_except_else, Tag_delete. fold (pending (Remove (Tag.id tag)) st).
  destruct (session_commit P ctx (pending (Remove (Tag.id tag)) st))
    as [[ex|[]] st']; [|reflexivity].
  now destruct (isinstance_DatabaseError ex).
Qed.


(** An error of another class leaves [post] as an exception: the handler
    neither logs nor answers. *)
Lemma post_uncaught (P : Platform) (ctx : Ctx)
  (body : gmap string json) (name : string) (st : State) (ex : DBAPIError) :
  Schema.CreateTagSchema_load body = inr name ->
  fault ctx = Some ex ->
  isinstance_IntegrityError ex = false ->
  TagResource.post P ctx body st = (inl ex, rolled_back st).
Proof.
  intros Hload Hfault Hint. rewrite (post_valid _ _ _ _ _ Hload).
  unfold session_commit. now rewrite Hfault, Hint.
Qed.

(** C2, where the handlers depart from it: a store error that is not an
    [IntegrityError] (here a lost connection) is not caught by [post] nor by
    [put]; it leaves the handler as an exception, with nothing logged and
    no response. *)
Theorem other_store_error_escapes_create_and_update :
  let ctx := mkCtx (Some connection_lost) "4" 40 in
  let body : gmap string json := <["name" := JString "go"]> ∅ in
  let st := mkState example_table [] [] in
  TagResource.post example_platform ctx body st
    = (inl connection_lost, mkState example_table [] [])
  /\ TagResource.put example_platform ctx "1" body st
    = (inl connection_lost, mkState example_table [] []).
Proof. split; reflexivity. Qed.





(** C8: an update whose body has no [name] leaves the stored rows as they
    were and, when the commit goes through, returns the tag unchanged; an
    update whose [name] is the empty string is answered 400 and changes
    nothing. *)
Theorem update_without_name_keeps_tag (P : Platform) (ctx : Ctx)
  (tag_id : string) (body : gmap string json) (st : State) :
  (forall tag,
     clean st -> body !! "name" = None ->
     Query.get tag_id (rows st) = Some tag ->
     rows (snd (TagResource.put P ctx tag_id body st)) = rows st
     /\ Query.get tag_id (rows (snd (TagResource.put P ctx tag_id body st)))
        = Some tag
     /\ (fault ctx = None ->
         TagResource.put P ctx tag_id body st = (inr (TagBody tag), st)))
  /\ (body !! "name" = Some (JString EmptyString) ->
      TagResource.put P ctx tag_id body st =
        (inr (make_error_response 400
                (FieldErrors {[ "name" := [Schema.msg_length] ]}) None), st)).
Proof.
  split.
  - intros tag Hclean Hbody Hget.
    assert (Hload : Schema.UpdateTagSchema_load body = inr None)
      by (unfold Schema.UpdateTagSchema_load; now rewrite Hbody).
    rewrite (put_valid _ _ _ _ _ _ _ Hload Hget). unfold Tag_update.
    assert (Hrows : rows (snd
      match session_commit P ctx st with
      | (inl ex, st') =>
          if isinstance_IntegrityError ex
          then TagResource.on_integrity_error ex st' else (inl ex, st')
      | (inr _, st') =>
          (inr (TagBody (default tag (Query.get tag_id (rows st')))), st')
      end) = rows st).
    { pose proof (commit_rows P ctx st Hclean) as Hr.
      destruct (session_commit P ctx st) as [[ex|[]] st']; simpl in *;
        [|assumption].
      destruct (isinstance_IntegrityError ex); [|assumption].
      unfold TagResource.on_integrity_error, bind, session_rollback,
        LOG_exception.
      destruct (TagResource.is_duplicate (orig ex)); simpl; assumption. }
    split; [exact Hrows|]. split; [now rewrite Hrows|].
    intros Hf. rewrite (commit_clean P ctx st Hclean Hf). now rewrite Hget.
  - intros Hbody. unfold TagResource.put, Schema.UpdateTagSchema_load.
    rewrite Hbody. reflexivity.
Qed.

Lemma update_without_name_keeps_tag_witness :
  let st := mkState example_table [] [] in
  TagResource.put example_platform (mkCtx None "4" 40) "1" ∅ st
    = (inr (TagBody (Tag.mk "1" "db" 10 10)), st)
  /\ TagResource.put example_platform (mkCtx None "4" 40) "1"
       (<["name" := JString EmptyString]> ∅) st
    = (inr (make_error_response 400
              (FieldErrors {[ "name" := [Schema.msg_length] ]}) None), st).
Proof.
  split.
  - exact (proj2 (proj2 (proj1 (update_without_name_keeps_tag example_platform
             (mkCtx None "4" 40) "1" ∅ (mkState example_table [] []))
             (Tag.mk "1" "db" 10 10) eq_refl eq_refl eq_refl)) eq_refl).
  - exact (proj2 (update_without_name_keeps_tag example_platform
             (mkCtx None "4" 40) "1" (<["name" := JString EmptyString]> ∅)
             (mkState example_table [] [])) eq_refl).
Defined.

(** C10: an update whose body fails validation is answered 400 whatever the
    store holds: the body is validated before the tag is looked up, so an
    unknown id is answered 400 as well, not 404. *)
Theorem invalid_update_is_400_before_lookup (P : Platform) (ctx : Ctx)
  (tag_id : string) (body : gmap string json) (st : State)
  (errors : gmap string (list string)) :
  Schema.UpdateTagSchema_load body = inl errors ->
  TagResource.put P ctx tag_id body st =
    (inr (make_error_response 400 (FieldErrors errors) None), st)
  /\ (Query.get tag_id (rows st) = None ->
      fst (TagResource.put P ctx tag_id body st)
        <> inr (TagResource.not_found tag_id)).
Proof.
  intros Hload.
  assert (H : TagResource.put P ctx tag_id body st =
    (inr (make_error_response 400 (FieldErrors errors) None), st))
    by (unfold TagResource.put; now rewrite Hload).
  split; [exact H|]. intros _. rewrite H. discriminate.
Qed.

Lemma invalid_update_is_400_before_lookup_witness :
  let st := mkState example_table [] [] in
  TagResource.put example_platform (mkCtx None "4" 40) "no-such-id"
    (<["name" := JNumber 7]> ∅) st
  = (inr (make_error_response 400
            (FieldErrors {[ "name" := [Schema.msg_invalid] ]}) None), st).
Proof.
  exact (proj1 (invalid_update_is_400_before_lookup example_platform
                  (mkCtx None "4" 40) "no-such-id" (<["name" := JNumber 7]> ∅)
                  (mkState example_table [] [])
                  {[ "name" := [Schema.msg_invalid] ]} eq_refl)).
Defined.

(* ===================================================================== *)
(** * Further properties of the handlers *)
(* ===================================================================== *)

(** ** What a page is made of *)

Lemma ordered_sublist {A : Type} (le : A -> A -> bool) (l1 l2 : list A) :
  l1 `sublist_of` l2 -> Sql.ordered le l2 -> Sql.ordered le l1.
Proof.
  induction 1 as [|x l1 l2 Hsub IH|x l1 l2 Hsub IH]; simpl.
  - trivial.
  - intros [Hx Hl]. split; [|now apply IH].
    intros y Hy. apply Hx. apply list_elem_of_In.
    eapply elem_of_sublist; [|exact Hsub]. now apply list_elem_of_In.
  - intros [_ Hl]. now apply IH.
Qed.

Lemma paginate_status (P : Platform) (page pagesize : option string)
  (sorted : list Tag.t) (r : response) :
  paginate P page pagesize sorted = inr r ->
  status_of r = 200 \/ status_of r = 400.
Proof.
  unfold paginate.
  destruct (PyStr.truthy page && PyStr.truthy pagesize).
  - destruct (PyStr.int _ _); [|intros [= <-]; now right].
    destruct (PyStr.int _ _); [|intros [= <-]; now right].
    destruct (Sql.offset _ _ _); [discriminate|].
    destruct (Sql.limit _ _ _); [discriminate|]. intros [= <-]. now left.
  - intros [= <-]. now left.
Qed.

(** The answer of a list request, stage by stage. *)
Lemma get_stages (P : Platform) (args : gmap string string)
  (table : list Tag.t) :
  (exists since msg,
     args !! "since" = Some since /\ parse_isotime P since = inl msg
     /\ TagResource.get P args None table
        = inr (make_error_response 400 (Text msg) None))
  \/ (since_ok P args = true
      /\ getattr_Tag (default "updated_at" (args !! "sort")) = None
      /\ TagResource.get P args None table
         = inr (make_error_response 400
                  (Text ("Unknown sort "
                         +:+ PyStr.repr (default "updated_at" (args !! "sort"))))
                  None))
  \/ (exists a,
        since_ok P args = true
        /\ getattr_Tag (default "updated_at" (args !! "sort")) = Some a
        /\ getattr_call a (default "desc" (args !! "direction")) = None
        /\ TagResource.get P args None table
           = inr (make_error_response 400
                    (Text ("Unknown direction "
                           +:+ PyStr.repr (default "desc" (args !! "direction"))))
                    None))
  \/ (exists a e ex,
        since_ok P args = true
        /\ getattr_Tag (default "updated_at" (args !! "sort")) = Some a
        /\ getattr_call a (default "desc" (args !! "direction")) = Some e
        /\ Sql.ordering_of P e = inl ex
        /\ TagResource.get P args None table = inl ex)
  \/ (exists a e le,
        since_ok P args = true
        /\ getattr_Tag (default "updated_at" (args !! "sort")) = Some a
        /\ getattr_call a (default "desc" (args !! "direction")) = Some e
        /\ Sql.ordering_of P e = inr le
        /\ TagResource.get P args None table
           = paginate P (args !! "page") (args !! "pagesize")
               (Sql.sort le (filtered P args table))).
Proof.
  destruct (since_ok P args) eqn:Hs.
  - right.
    destruct (getattr_Tag (default "updated_at" (args !! "sort")))
      as [a|] eqn:Ha.
    + right.
      destruct (getattr_call a (default "desc" (args !! "direction")))
        as [e|] eqn:He.
      * right. destruct (Sql.ordering_of P e) as [ex|le] eqn:Hle.
        -- left. exists a, e, ex. repeat (split; [assumption || reflexivity|]).
           now apply (get_rejected_order P _ _ a e).
        -- right. exists a, e, le. repeat (split; [assumption || reflexivity|]).
           now apply (get_list P _ _ a e le).
      * left. exists a. repeat (split; [assumption || reflexivity|]).
        now apply (get_bad_direction P _ _ a).
    + left. repeat (split; [assumption || reflexivity|]).
      now apply get_bad_sort.
  - left. unfold since_ok in Hs.
    destruct (args !! "since") as [since|] eqn:Hsi; [|discriminate].
    destruct (parse_isotime P since) as [msg|] eqn:Hp; [|discriminate].
    exists since, msg. repeat (split; [assumption || reflexivity|]).
    now apply (get_bad_since P _ _ since).
Qed.

(** X1: [get] answers 200 or 400 to a list request and 200 or 404 to a request
    for one tag; a list request is never answered 404, 409 or 500 by the
    handler. *)
Theorem get_statuses (P : Platform) (args : gmap string string)
  (tag_id : option string) (table : list Tag.t) (r : response) :
  TagResource.get P args tag_id table = inr r ->
  if PyStr.truthy tag_id
  then status_of r = 200 \/ status_of r = 404
  else status_of r = 200 \/ status_of r = 400.
Proof.
  destruct tag_id as [[|c tid]|]; simpl.
  2:{ unfold TagResource.get, TagResource._get_by_id.
      destruct (Query.get _ _); intros [= <-]; [now left|now right]. }
  all: intros H; change (TagResource.get P args None table = inr r) in H;
    destruct (get_stages P args table)
      as [(s & m & _ & _ & Hg)|[(_ & _ & Hg)|[(a & _ & _ & _ & Hg)
         |[(a & e & ex & _ & _ & _ & _ & Hg)|(a & e & le & _ & _ & _ & _ & Hg)]]]];
    rewrite Hg in H; try (injection H as <-; now right); try discriminate;
    now apply paginate_status in H.
Qed.

Lemma get_statuses_witness :
  status_of (TagsBody [Tag.mk "1" "db" 10 10] 3) = 200
  \/ status_of (TagsBody [Tag.mk "1" "db" 10 10] 3) = 400.
Proof.
  exact (get_statuses example_platform
           (<["page" := "3"]> (<["pagesize" := "1"]> ∅)) None example_table
           (TagsBody [Tag.mk "1" "db" 10 10] 3) eq_refl).
Defined.

(** Requests that agree on [since], [sort], [direction], [page] and
    [pagesize] and select the same rows get the same answer. *)
Lemma get_same_selection (P : Platform) (args args' : gmap string string)
  (table : list Tag.t) :
  args' !! "since" = args !! "since" ->
  args' !! "sort" = args !! "sort" ->
  args' !! "direction" = args !! "direction" ->
  args' !! "page" = args !! "page" ->
  args' !! "pagesize" = args !! "pagesize" ->
  filtered P args' table = filtered P args table ->
  TagResource.get P args' None table = TagResource.get P args None table.
Proof.
  intros Hsince Hsort Hdir Hpage Hps Hf.
  assert (Hok : since_ok P args' = since_ok P args)
    by (unfold since_ok; now rewrite Hsince).
  destruct (get_stages P args table)
    as [(s & m & Hs & Hp & Hg)|[(Hs & Ha & Hg)|[(a & Hs & Ha & He & Hg)
       |[(a & e & ex & Hs & Ha & He & Hle & Hg)
        |(a & e & le & Hs & Ha & He & Hle & Hg)]]]];
    rewrite Hg.
  - apply (get_bad_since P args' _ s); [now rewrite Hsince|assumption].
  - rewrite (get_bad_sort P args'); rewrite ?Hsort, ?Hok; auto.
  - rewrite (get_bad_direction P args' _ a);
      rewrite ?Hsort, ?Hdir, ?Hok; auto.
  - apply (get_rejected_order P args' _ a e);
      rewrite ?Hsort, ?Hdir, ?Hok; auto.
  - rewrite (get_list P args' _ a e le);
      rewrite ?Hsort, ?Hdir, ?Hok, ?Hpage, ?Hps, ?Hf; auto.
Qed.

Lemma get_window (P : Platform) (args : gmap string string)
  (table : list Tag.t) (a : InstrumentedAttribute) (e : UnaryExpression)
  (le : Tag.t -> Tag.t -> bool) (page_s pagesize_s : string)
  (page pagesize : Z) :
  since_ok P args = true ->
  getattr_Tag (default "updated_at" (args !! "sort")) = Some a ->
  getattr_call a (default "desc" (args !! "direction")) = Some e ->
  Sql.ordering_of P e = inr le ->
  args !! "page" = Some page_s ->
  args !! "pagesize" = Some pagesize_s ->
  PyStr.int (int_max_str_digits P) page_s = Some page ->
  PyStr.int (int_max_str_digits P) pagesize_s = Some pagesize ->
  0 <= pagesize < 2 ^ 63 ->
  Z.max 0 ((page - 1) * pagesize) < 2 ^ 63 ->
  TagResource.get P args None table =
    inr (TagsBody (window page pagesize (Sql.sort le (filtered P args table)))
           (Z.of_nat (length (filtered P args table)))).
Proof.
  intros Hs Ha He Hle Hp Hps Hip Hips Hnn Hoff.
  rewrite (get_list P _ _ _ _ _ Hs Ha He Hle). unfold paginate.
  rewrite Hp, Hps, (int_truthy _ _ _ Hip), (int_truthy _ _ _ Hips).
  simpl. rewrite Hip, Hips, offset_int64 by lia.
  rewrite limit_nonneg by assumption.
  now rewrite sort_length.
Qed.

(** ** The rows of a list response *)

(** X2: Every tag of a list response is a stored row that passes the filters of
    the request, the response never holds more tags than its [total], and
    [total] never exceeds the number of stored rows. *)
Theorem list_returns_stored_rows (P : Platform) (args : gmap string string)
  (table tags : list Tag.t) (total : Z) :
  TagResource.get P args None table = inr (TagsBody tags total) ->
  (forall tag, In tag tags ->
     In tag table /\ satisfies_filters P args tag = true)
  /\ Z.of_nat (length tags) <= total <= Z.of_nat (length table).
Proof.
  intros H.
  destruct (get_list_inv P _ _ _ _ H) as (a & e & le & Hs & Ha & He & Hle).
  rewrite (get_list P _ _ _ _ _ Hs Ha He Hle) in H.
  pose proof (paginate_total P _ _ _ _ _ H) as Ht.
  pose proof (paginate_sublist P _ _ _ _ _ H) as Hsub.
  rewrite sort_length in Ht. split.
  - intros tag Hin. apply (paginate_In P _ _ _ _ _ _ H) in Hin.
    apply sort_In in Hin. unfold filtered in Hin.
    now apply filter_In in Hin.
  - apply sublist_length in Hsub. rewrite sort_length in Hsub.
    pose proof (filter_length_le (satisfies_filters P args) table) as Hle'.
    unfold filtered in *. lia.
Qed.

Lemma list_returns_stored_rows_witness :
  (forall tag, In tag [Tag.mk "1" "db" 10 10] ->
     In tag example_table
     /\ satisfies_filters example_platform
          (<["page" := "3"]> (<["pagesize" := "1"]> ∅)) tag = true)
  /\ Z.of_nat (length [Tag.mk "1" "db" 10 10]) <= 3
     <= Z.of_nat (length example_table).
Proof.
  exact (list_returns_stored_rows example_platform
           (<["page" := "3"]> (<["pagesize" := "1"]> ∅)) example_table
           [Tag.mk "1" "db" 10 10] 3 eq_refl).
Defined.

(** X3: With a [since] parameter, a list is only returned when the parameter
    parses, every returned tag was updated at or after that time, and
    without [name] and without pagination the returned tags are exactly the
    stored tags updated at or after it. *)
Theorem since_filter_is_lower_bound (P : Platform)
  (args : gmap string string) (table tags : list Tag.t) (total : Z)
  (since : string) :
  args !! "since" = Some since ->
  TagResource.get P args None table = inr (TagsBody tags total) ->
  exists ts,
    parse_isotime P since = inr ts
    /\ (forall tag, In tag tags -> ts <= Tag.updated_at tag)
    /\ (args !! "name" = None ->
        PyStr.truthy (args !! "page") && PyStr.truthy (args !! "pagesize")
          = false ->
        Permutation tags
          (List.filter (fun tag => ts <=? Tag.updated_at tag) table)).
Proof.
  intros Hsince H.
  destruct (get_list_inv P _ _ _ _ H) as (a & e & le & Hs & Ha & He & Hle).
  rewrite (get_list P _ _ _ _ _ Hs Ha He Hle) in H.
  unfold since_ok in Hs. rewrite Hsince in Hs.
  destruct (parse_isotime P since) as [|ts] eqn:Hp; [discriminate|].
  exists ts. split; [reflexivity|]. split.
  - intros tag Hin. apply (paginate_In P _ _ _ _ _ _ H) in Hin.
    apply sort_In in Hin. unfold filtered in Hin.
    apply filter_In in Hin as [_ Hf].
    unfold satisfies_filters in Hf. rewrite Hsince, Hp in Hf.
    apply andb_true_iff in Hf as [_ Hf]. lia.
  - intros Hname Hoff. rewrite (paginate_off P _ _ _ Hoff) in H.
    injection H as <- _. rewrite sort_perm.
    unfold filtered, satisfies_filters. rewrite Hname, Hsince, Hp.
    reflexivity.
Qed.

Lemma since_filter_is_lower_bound_witness :
  exists ts,
    parse_isotime example_platform "20" = inr ts
    /\ (forall tag,
          In tag [Tag.mk "2" "web" 20 30; Tag.mk "3" "a_b" 30 20] ->
          ts <= Tag.updated_at tag)
    /\ (True -> True ->
        Permutation [Tag.mk "2" "web" 20 30; Tag.mk "3" "a_b" 30 20]
          (List.filter (fun tag => ts <=? Tag.updated_at tag) example_table)).
Proof.
  pose proof (since_filter_is_lower_bound example_platform
                (<["since" := "20"]> ∅) example_table
                [Tag.mk "2" "web" 20 30; Tag.mk "3" "a_b" 30 20] 2 "20"
                eq_refl eq_refl) as (ts & Hp & Hall & Hexact).
  exists ts. split; [exact Hp|]. split; [exact Hall|].
  intros _ _. exact (Hexact eq_refl eq_refl).
Defined.

(** X4: The rows of a list response come in the order asked for: ascending in
    the sort column with [direction=asc], descending with [direction=desc]
    or without [direction]; without [sort] the column is [updated_at], so
    the default is newest first. Paging keeps the order. *)
Theorem list_is_ordered (P : Platform) (args : gmap string string)
  (table tags : list Tag.t) (total : Z) (a : InstrumentedAttribute) :
  TagResource.get P args None table = inr (TagsBody tags total) ->
  getattr_Tag (default "updated_at" (args !! "sort")) = Some a ->
  (default "desc" (args !! "direction") = "asc" ->
   Sql.ordered (Sql.asc_le a) tags)
  /\ (default "desc" (args !! "direction") = "desc" ->
      Sql.ordered (Sql.desc_le a) tags)
  /\ (args !! "sort" = None -> a = Tag_updated_at).
Proof.
  intros H Ha.
  destruct (get_list_inv P _ _ _ _ H) as (a' & e & le & Hs & Ha' & He & Hle).
  rewrite Ha in Ha'. injection Ha' as <-.
  rewrite (get_list P _ _ _ _ _ Hs Ha He Hle) in H.
  apply paginate_sublist in H.
  split; [|split].
  - intros Hd. rewrite Hd in He. injection He as <-.
    injection Hle as <-. simpl in H.
    eapply ordered_sublist; [exact H|]. apply sort_asc_ordered.
  - intros Hd. rewrite Hd in He. injection He as <-.
    injection Hle as <-. simpl in H.
    eapply ordered_sublist; [exact H|]. apply sort_desc_ordered.
  - intros Hsort. rewrite Hsort in Ha. now injection Ha as <-.
Qed.

Lemma list_is_ordered_witness :
  Sql.ordered (Sql.desc_le Tag_updated_at)
    [Tag.mk "2" "web" 20 30; Tag.mk "3" "a_b" 30 20].
Proof.
  exact (proj1 (proj2 (list_is_ordered example_platform
           (<["page" := "1"]> (<["pagesize" := "2"]> ∅)) example_table
           [Tag.mk "2" "web" 20 30; Tag.mk "3" "a_b" 30 20] 3
           Tag_updated_at eq_refl eq_refl)) eq_refl).
Defined.

(** ** The order of the checks of a list request *)

(** X5: The parameters of a list request are checked in the order [since],
    [sort], [direction], [page], [pagesize], and the first one that fails
    decides the answer: a bad [since] is answered with the parser's message
    whatever the other parameters hold, and so on down to [pagesize], whose
    400 is only seen when [page] is an integer. *)
Theorem list_checks_in_order (P : Platform) (args : gmap string string)
  (table : list Tag.t) :
  (forall since msg,
     args !! "since" = Some since -> parse_isotime P since = inl msg ->
     TagResource.get P args None table
       = inr (make_error_response 400 (Text msg) None))
  /\ (since_ok P args = true ->
      getattr_Tag (default "updated_at" (args !! "sort")) = None ->
      TagResource.get P args None table
        = inr (make_error_response 400
                 (Text ("Unknown sort "
                        +:+ PyStr.repr (default "updated_at" (args !! "sort"))))
                 None))
  /\ (forall a,
        since_ok P args = true ->
        getattr_Tag (default "updated_at" (args !! "sort")) = Some a ->
        getattr_call a (default "desc" (args !! "direction")) = None ->
        TagResource.get P args None table
          = inr (make_error_response 400
                   (Text ("Unknown direction "
                          +:+ PyStr.repr (default "desc" (args !! "direction"))))
                   None))
  /\ (forall a e le page_s pagesize_s,
        since_ok P args = true ->
        getattr_Tag (default "updated_at" (args !! "sort")) = Some a ->
        getattr_call a (default "desc" (args !! "direction")) = Some e ->
        Sql.ordering_of P e = inr le ->
        args !! "page" = Some page_s ->
        args !! "pagesize" = Some pagesize_s ->
        page_s <> EmptyString -> pagesize_s <> EmptyString ->
        (PyStr.int (int_max_str_digits P) page_s = None ->
         TagResource.get P args None table
           = inr (make_error_response 400
                    (Text ("Unknown page " +:+ PyStr.repr page_s)) None))
        /\ (forall page,
              PyStr.int (int_max_str_digits P) page_s = Some page ->
              PyStr.int (int_max_str_digits P) pagesize_s = None ->
              TagResource.get P args None table
                = inr (make_error_response 400
                         (Text ("Unknown pagesize " +:+ PyStr.repr pagesize_s))
                         None))).
Proof.
  split; [|split; [|split]].
  - intros since msg. apply get_bad_since.
  - apply get_bad_sort.
  - intros a. apply get_bad_direction.
  - intros a e le page_s pagesize_s Hs Ha He Hle Hp Hps Hne Hne'.
    rewrite (get_list P _ _ _ _ _ Hs Ha He Hle). unfold paginate.
    rewrite Hp, Hps.
    destruct page_s as [|c1 p]; [congruence|].
    destruct pagesize_s as [|c2 ps]; [congruence|]. simpl.
    split.
    + now intros ->.
    + now intros page -> ->.
Qed.

Lemma list_checks_in_order_witness :
  TagResource.get example_platform
    (<["since" := "yesterday"]> (<["sort" := "bogus"]> (<["page" := "x"]> ∅)))
    None example_table
  = inr (make_error_response 400 (Text "Invalid timestamp 'yesterday'") None)
  /\ TagResource.get example_platform
       (<["sort" := "bogus"]> (<["direction" := "up"]> ∅)) None example_table
     = inr (make_error_response 400 (Text "Unknown sort 'bogus'") None)
  /\ TagResource.get example_platform
       (<["direction" := "up"]> (<["page" := "x"]> (<["pagesize" := "y"]> ∅)))
       None example_table
     = inr (make_error_response 400 (Text "Unknown direction 'up'") None)
  /\ TagResource.get example_platform
       (<["page" := "x"]> (<["pagesize" := "y"]> ∅)) None example_table
     = inr (make_error_response 400 (Text "Unknown page 'x'") None)
  /\ TagResource.get example_platform
       (<["page" := "1"]> (<["pagesize" := "y"]> ∅)) None example_table
     = inr (make_error_response 400 (Text "Unknown pagesize 'y'") None).
Proof.
  split; [|split; [|split; [|split]]].
  - exact (proj1 (list_checks_in_order example_platform
             (<["since" := "yesterday"]>
                (<["sort" := "bogus"]> (<["page" := "x"]> ∅)))
             example_table)
             "yesterday" "Invalid timestamp 'yesterday'" eq_refl eq_refl).
  - exact (proj1 (proj2 (list_checks_in_order example_platform
             (<["sort" := "bogus"]> (<["direction" := "up"]> ∅))
             example_table)) eq_refl eq_refl).
  - exact (proj1 (proj2 (proj2 (list_checks_in_order example_platform
             (<["direction" := "up"]> (<["page" := "x"]> (<["pagesize" := "y"]> ∅)))
             example_table))) Tag_updated_at eq_refl eq_refl eq_refl).
  - refine (proj1 (proj2 (proj2 (proj2 (list_checks_in_order example_platform
             (<["page" := "x"]> (<["pagesize" := "y"]> ∅)) example_table)))
             Tag_updated_at (mkUnary Tag_updated_at desc_op)
             (Sql.desc_le Tag_updated_at) "x" "y"
             eq_refl eq_refl eq_refl eq_refl eq_refl eq_refl _ _) eq_refl);
      discriminate.
  - refine (proj2 (proj2 (proj2 (proj2 (list_checks_in_order example_platform
             (<["page" := "1"]> (<["pagesize" := "y"]> ∅)) example_table)))
             Tag_updated_at (mkUnary Tag_updated_at desc_op)
             (Sql.desc_le Tag_updated_at) "1" "y"
             eq_refl eq_refl eq_refl eq_refl eq_refl eq_refl _ _) 1 eq_refl eq_refl);
      discriminate.
Defined.

(** ** Pages *)

Lemma firstn_add {A : Type} (n m : nat) (l : list A) :
  firstn (n + m) l = firstn n l ++ firstn m (skipn n l).
Proof.
  revert l. induction n as [|n IH]; intros [|x l]; simpl;
    rewrite ?firstn_nil; try reflexivity.
  now rewrite IH.
Qed.

(** X6: A [page] of 1 or less (0, negative) gives the first page: the offset is
    clamped at 0. The [pagesize] is one the engine takes: not negative and
    within 64 bits. *)
Theorem page_below_one_is_first_page (P : Platform)
  (args : gmap string string) (table : list Tag.t)
  (a : InstrumentedAttribute) (e : UnaryExpression)
  (le : Tag.t -> Tag.t -> bool) (page_s pagesize_s : string)
  (page pagesize : Z) :
  since_ok P args = true ->
  getattr_Tag (default "updated_at" (args !! "sort")) = Some a ->
  getattr_call a (default "desc" (args !! "direction")) = Some e ->
  Sql.ordering_of P e = inr le ->
  args !! "page" = Some page_s ->
  args !! "pagesize" = Some pagesize_s ->
  PyStr.int (int_max_str_digits P) page_s = Some page ->
  PyStr.int (int_max_str_digits P) pagesize_s = Some pagesize ->
  page <= 1 -> 0 <= pagesize < 2 ^ 63 ->
  TagResource.get P args None table =
    inr (TagsBody
           (firstn (Z.to_nat pagesize) (Sql.sort le (filtered P args table)))
           (Z.of_nat (length (filtered P args table)))).
Proof.
  intros Hs Ha He Hle Hp Hps Hip Hips Hpage Hnn.
  rewrite (get_window P _ _ _ _ _ _ _ _ _ Hs Ha He Hle Hp Hps Hip Hips Hnn)
    by nia.
  unfold window.
  replace (Z.max 0 ((page - 1) * pagesize)) with 0 by nia.
  reflexivity.
Qed.

Lemma page_below_one_is_first_page_witness :
  TagResource.get example_platform
    (<["page" := "-4"]> (<["pagesize" := "2"]> ∅)) None example_table
  = inr (TagsBody [Tag.mk "2" "web" 20 30; Tag.mk "3" "a_b" 30 20] 3).
Proof.
  refine (page_below_one_is_first_page example_platform
            (<["page" := "-4"]> (<["pagesize" := "2"]> ∅)) example_table
            Tag_updated_at (mkUnary Tag_updated_at desc_op)
            (Sql.desc_le Tag_updated_at) "-4" "2" (-4) 2
            eq_refl eq_refl eq_refl eq_refl eq_refl eq_refl eq_refl eq_refl
            _ _); lia.
Defined.

(** X7: A page that starts at or after the end of the filtered rows is the
    empty list, answered 200 with the full [total], whatever the order of
    the rows; the offset and the [pagesize] are ones the engine takes: not
    negative and within 64 bits. *)
Theorem page_past_the_end_is_empty (P : Platform)
  (args : gmap string string) (table : list Tag.t)
  (a : InstrumentedAttribute) (e : UnaryExpression)
  (le : Tag.t -> Tag.t -> bool) (page_s pagesize_s : string)
  (page pagesize : Z) :
  since_ok P args = true ->
  getattr_Tag (default "updated_at" (args !! "sort")) = Some a ->
  getattr_call a (default "desc" (args !! "direction")) = Some e ->
  Sql.ordering_of P e = inr le ->
  args !! "page" = Some page_s ->
  args !! "pagesize" = Some pagesize_s ->
  PyStr.int (int_max_str_digits P) page_s = Some page ->
  PyStr.int (int_max_str_digits P) pagesize_s = Some pagesize ->
  0 <= pagesize < 2 ^ 63 ->
  (page - 1) * pagesize < 2 ^ 63 ->
  Z.of_nat (length (filtered P args table)) <= (page - 1) * pagesize ->
  TagResource.get P args None table =
    inr (TagsBody [] (Z.of_nat (length (filtered P args table)))).
Proof.
  intros Hs Ha He Hle Hp Hps Hip Hips Hnn Hoff Hpast.
  rewrite (get_window P _ _ _ _ _ _ _ _ _ Hs Ha He Hle Hp Hps Hip Hips Hnn)
    by lia.
  unfold window. rewrite skipn_all2; [now rewrite firstn_nil|].
  rewrite sort_length. lia.
Qed.

Lemma page_past_the_end_is_empty_witness :
  TagResource.get example_platform
    (<["page" := "3"]> (<["pagesize" := "2"]> ∅)) None example_table
  = inr (TagsBody [] 3).
Proof.
  refine (page_past_the_end_is_empty example_platform
            (<["page" := "3"]> (<["pagesize" := "2"]> ∅)) example_table
            Tag_updated_at (mkUnary Tag_updated_at desc_op)
            (Sql.desc_le Tag_updated_at) "3" "2" 3 2
            eq_refl eq_refl eq_refl eq_refl eq_refl eq_refl eq_refl eq_refl
            _ _ _); [lia|lia|vm_compute; discriminate].
Defined.

Lemma key_le_compare (a : InstrumentedAttribute) (x y : Tag.t) :
  key_le a x y <-> Sql.compare_on a x y <> Gt.
Proof.
  unfold key_le, String.leb. destruct a; simpl;
    try (destruct (String.compare _ _); easy);
    rewrite Z.compare_le_iff; reflexivity.
Qed.

Lemma key_le_antisym (a : InstrumentedAttribute) (x y : Tag.t) :
  key_le a x y -> key_le a y x -> Sql.compare_on a x y = Eq.
Proof.
  rewrite !key_le_compare, (compare_on_antisym a x y).
  destruct (Sql.compare_on a x y); simpl; congruence.
Qed.

Lemma no_ties_perm (a : InstrumentedAttribute) (l l' : list Tag.t) :
  Permutation l' l -> no_ties a l -> no_ties a l'.
Proof.
  intros Hp Hnt x y Hx Hy. apply Hnt; eapply Permutation_in; eassumption.
Qed.

(** Without ties there is one way to put the rows in order. *)
Lemma ascending_unique (a : InstrumentedAttribute) (l1 l2 : list Tag.t) :
  no_ties a l1 -> Permutation l1 l2 ->
  ascending a l1 -> ascending a l2 -> l1 = l2.
Proof.
  revert l2. induction l1 as [|x l1 IH]; intros l2 Hnt Hp H1 H2.
  - now apply Permutation_nil in Hp.
  - destruct l2 as [|y l2];
      [now apply Permutation_sym, Permutation_nil in Hp|].
    destruct H1 as [Hx H1], H2 as [Hy H2].
    assert (Hxy : x = y).
    { pose proof (Permutation_in x Hp (or_introl eq_refl)) as [Hin|Hin];
        [now symmetry|].
      pose proof (Permutation_in y (Permutation_sym Hp) (or_introl eq_refl))
        as [Hin'|Hin']; [assumption|].
      apply Hnt; [now left|now right|].
      apply key_le_antisym; auto. }
    subst y. f_equal. apply IH; try assumption.
    + intros u v Hu Hv. apply Hnt; now right.
    + now apply Permutation_cons_inv in Hp.
Qed.

Lemma descending_unique (a : InstrumentedAttribute) (l1 l2 : list Tag.t) :
  no_ties a l1 -> Permutation l1 l2 ->
  descending a l1 -> descending a l2 -> l1 = l2.
Proof.
  revert l2. induction l1 as [|x l1 IH]; intros l2 Hnt Hp H1 H2.
  - now apply Permutation_nil in Hp.
  - destruct l2 as [|y l2];
      [now apply Permutation_sym, Permutation_nil in Hp|].
    destruct H1 as [Hx H1], H2 as [Hy H2].
    assert (Hxy : x = y).
    { pose proof (Permutation_in x Hp (or_introl eq_refl)) as [Hin|Hin];
        [now symmetry|].
      pose proof (Permutation_in y (Permutation_sym Hp) (or_introl eq_refl))
        as [Hin'|Hin']; [assumption|].
      apply Hnt; [now left|now right|].
      apply key_le_antisym; auto. }
    subst y. f_equal. apply IH; try assumption.
    + intros u v Hu Hv. apply Hnt; now right.
    + now apply Permutation_cons_inv in Hp.
Qed.

(** X8: When no two of the filtered rows are equal on the sort column, two
    consecutive pages of the same request, sorted [asc] or [desc], hold
    consecutive rows: put end to end they are one slice of the filtered
    rows in that order, whichever way the engine sorts, so no row is skipped
    and none is repeated between them. The offsets and the [pagesize] are
    ones the engine takes: not negative and within 64 bits. *)
Theorem consecutive_pages_are_contiguous (P : Platform)
  (args : gmap string string) (table : list Tag.t)
  (a : InstrumentedAttribute) (e : UnaryExpression)
  (le : Tag.t -> Tag.t -> bool) (page_s next_s pagesize_s : string)
  (page pagesize : Z) :
  since_ok P args = true ->
  getattr_Tag (default "updated_at" (args !! "sort")) = Some a ->
  getattr_call a (default "desc" (args !! "direction")) = Some e ->
  Sql.ordering_of P e = inr le ->
  modifier e = asc_op \/ modifier e = desc_op ->
  args !! "page" = Some page_s ->
  args !! "pagesize" = Some pagesize_s ->
  PyStr.int (int_max_str_digits P) page_s = Some page ->
  PyStr.int (int_max_str_digits P) next_s = Some (page + 1) ->
  PyStr.int (int_max_str_digits P) pagesize_s = Some pagesize ->
  1 <= page -> 0 <= pagesize < 2 ^ 63 -> page * pagesize < 2 ^ 63 ->
  no_ties a (filtered P args table) ->
  exists tags next total,
    TagResource.get P args None table = inr (TagsBody tags total)
    /\ TagResource.get P (<["page" := next_s]> args) None table
       = inr (TagsBody next total)
    /\ forall sorted,
         Permutation sorted (filtered P args table) ->
         (modifier e = asc_op -> ascending a sorted) ->
         (modifier e = desc_op -> descending a sorted) ->
         tags ++ next
         = firstn (Z.to_nat (2 * pagesize))
             (skipn (Z.to_nat ((page - 1) * pagesize)) sorted).
Proof.
  intros Hs Ha He Hle Hm Hp Hps Hip Hin Hips Hpage Hnn Hoff Hnt.
  set (sorted := Sql.sort le (filtered P args table)).
  set (args' := <["page" := next_s]> args).
  assert (Hf : filtered P args' table = filtered P args table).
  { unfold filtered, satisfies_filters, args'.
    now rewrite !lookup_insert_ne by discriminate. }
  exists (window page pagesize sorted), (window (page + 1) pagesize sorted),
    (Z.of_nat (length (filtered P args table))).
  split; [|split].
  - apply (get_window P _ _ a e le page_s pagesize_s); try assumption. nia.
  - rewrite (get_window P args' _ a e le next_s pagesize_s (page + 1) pagesize);
      unfold args', since_ok;
      rewrite ?lookup_insert_ne by discriminate;
      rewrite ?lookup_insert_eq; try assumption; try reflexivity; try nia.
    fold args'. now rewrite Hf.
  - intros sorted' Hperm Hasc Hdesc.
    assert (Hsame : sorted' = sorted).
    { destruct (ordering_sorted P a e le _ (filtered P args table) He Hle)
        as (Hsp & _ & _ & Hsa & Hsd).
      assert (Hpp : Permutation sorted' sorted)
        by (etransitivity; [exact Hperm|now symmetry]).
      pose proof (no_ties_perm a _ _ Hperm Hnt) as Hnt'.
      destruct Hm as [Hm|Hm].
      - apply (ascending_unique a); auto.
      - apply (descending_unique a); auto. }
    rewrite Hsame. unfold window.
    replace (Z.to_nat (Z.max 0 ((page + 1 - 1) * pagesize)))
      with (Z.to_nat (Z.max 0 ((page - 1) * pagesize)) + Z.to_nat pagesize)%nat
      by nia.
    replace (Z.max 0 ((page - 1) * pagesize)) with ((page - 1) * pagesize)
      by nia.
    replace (Z.to_nat (2 * pagesize))
      with (Z.to_nat pagesize + Z.to_nat pagesize)%nat by lia.
    rewrite firstn_add, skipn_skipn.
    now rewrite (Nat.add_comm (Z.to_nat pagesize)).
Qed.

Lemma consecutive_pages_are_contiguous_witness :
  exists tags next total,
    TagResource.get example_platform
      (<["page" := "1"]> (<["pagesize" := "1"]> ∅)) None example_table
    = inr (TagsBody tags total)
    /\ TagResource.get example_platform
         (<["page" := "2"]> (<["page" := "1"]> (<["pagesize" := "1"]> ∅)))
         None example_table
       = inr (TagsBody next total)
    /\ tags ++ next = [Tag.mk "2" "web" 20 30; Tag.mk "3" "a_b" 30 20].
Proof.
  assert (Hnt : no_ties Tag_updated_at
                  (filtered example_platform
                     (<["page" := "1"]> (<["pagesize" := "1"]> ∅))
                     example_table)).
  { intros x y [<-|[<-|[<-|[]]]] [<-|[<-|[<-|[]]]]; simpl;
      try reflexivity; discriminate. }
  pose proof (consecutive_pages_are_contiguous example_platform
              (<["page" := "1"]> (<["pagesize" := "1"]> ∅)) example_table
              Tag_updated_at (mkUnary Tag_updated_at desc_op)
              (Sql.desc_le Tag_updated_at) "1" "2" "1" 1 1
              eq_refl eq_refl eq_refl eq_refl (or_intror eq_refl)
              eq_refl eq_refl eq_refl eq_refl eq_refl
              ltac:(lia) ltac:(lia) ltac:(lia) Hnt)
    as (tags & next & total & Hg & Hn & Hslice).
  exists tags, next, total. split; [exact Hg|]. split; [exact Hn|].
  apply (Hslice [Tag.mk "2" "web" 20 30; Tag.mk "3" "a_b" 30 20;
                 Tag.mk "1" "db" 10 10]).
  - apply Permutation_sym, Permutation_cons_app with (l1 := [_; _]) (l2 := []).
    reflexivity.
  - discriminate.
  - intros _. simpl. intuition (subst; simpl; lia).
Defined.

(** ** Edge cases of the name filter and of the lookup by id *)

(** X9: An empty [name] parameter filters nothing: the pattern is [%%], which
    every name matches, so the answer is that of the request without
    [name]. *)
Theorem empty_name_filters_nothing (P : Platform)
  (args : gmap string string) (table : list Tag.t) :
  args !! "name" = Some EmptyString ->
  TagResource.get P args None table
    = TagResource.get P (delete "name" args) None table.
Proof.
  intros Hname. symmetry.
  apply get_same_selection; rewrite ?lookup_delete_ne by discriminate;
    try reflexivity.
  unfold filtered, satisfies_filters.
  rewrite lookup_delete_eq, lookup_delete_ne, Hname by discriminate.
  apply filter_ext. intros tag. f_equal.
  change ("%" +:+ EmptyString +:+ "%") with (String "%" "%").
  now rewrite like_percent, like_percent_only.
Qed.

Lemma empty_name_filters_nothing_witness :
  TagResource.get example_platform
    (<["name" := EmptyString]> (<["sort" := "name"]> ∅)) None example_table
  = TagResource.get example_platform
      (delete "name" (<["name" := EmptyString]> (<["sort" := "name"]> ∅)))
      None example_table.
Proof.
  exact (empty_name_filters_nothing example_platform
           (<["name" := EmptyString]> (<["sort" := "name"]> ∅))
           example_table eq_refl).
Defined.

Lemma query_get_none (tag_id : string) (table : list Tag.t) :
  id_taken tag_id table = false -> Query.get tag_id table = None.
Proof.
  unfold id_taken, Query.get.
  induction table as [|t l IH]; simpl; [reflexivity|].
  destruct (String.eqb (Tag.id t) tag_id); [discriminate|exact IH].
Qed.

Lemma query_get_some (tag_id : string) (table : list Tag.t) :
  id_taken tag_id table = true ->
  exists tag, Query.get tag_id table = Some tag
              /\ In tag table /\ Tag.id tag = tag_id.
Proof.
  unfold id_taken, Query.get. intros H.
  destruct (find (fun tag => String.eqb (Tag.id tag) tag_id) table)
    as [tag|] eqn:Hf.
  - exists tag. apply find_some in Hf as [Hin Heq].
    apply String.eqb_eq in Heq. now repeat split.
  - apply existsb_exists in H as (t & Hin & Heq).
    apply (find_none _ _ Hf) in Hin. congruence.
Qed.

(** X10: A request for one tag answers with a stored row that has the requested
    id when there is one, and with 404 "Tag <id> not found" otherwise; the
    query parameters are not looked at. *)
Theorem get_by_id_finds_the_row (P : Platform) (args : gmap string string)
  (tag_id : string) (table : list Tag.t) :
  tag_id <> EmptyString ->
  (id_taken tag_id table = true ->
   exists tag,
     In tag table /\ Tag.id tag = tag_id
     /\ TagResource.get P args (Some tag_id) table = inr (TagBody tag))
  /\ (id_taken tag_id table = false ->
      TagResource.get P args (Some tag_id) table
        = inr (make_error_response 404
                 (Text ("Tag " +:+ PyStr.repr tag_id +:+ " not found")) None)).
Proof.
  intros Hne. destruct tag_id as [|c tid]; [congruence|].
  unfold TagResource.get, TagResource._get_by_id. split.
  - intros H. apply query_get_some in H as (tag & Hg & Hin & Hid).
    exists tag. now rewrite Hg.
  - intros H. now rewrite (query_get_none _ _ H).
Qed.

Lemma get_by_id_finds_the_row_witness :
  (exists tag,
     In tag example_table /\ Tag.id tag = "2"
     /\ TagResource.get example_platform (<["sort" := "bogus"]> ∅) (Some "2")
          example_table = inr (TagBody tag))
  /\ TagResource.get example_platform (<["sort" := "bogus"]> ∅) (Some "9")
       example_table
     = inr (make_error_response 404 (Text "Tag '9' not found") None).
Proof.
  split.
  - refine (proj1 (get_by_id_finds_the_row example_platform
                     (<["sort" := "bogus"]> ∅) "2" example_table _) eq_refl).
    discriminate.
  - refine (proj2 (get_by_id_finds_the_row example_platform
                     (<["sort" := "bogus"]> ∅) "9" example_table _) eq_refl).
    discriminate.
Defined.

(** X11: An update (with a valid body) or a deletion of an id that no row has is
    answered 404 "Tag <id> not found"; nothing is added to the session, no
    commit is tried and nothing is logged, even when the store is failing. *)
Theorem unknown_id_is_404 (P : Platform) (ctx : Ctx) (tag_id : string)
  (st : State) :
  id_taken tag_id (rows st) = false ->
  (forall body data,
     Schema.UpdateTagSchema_load body = inr data ->
     TagResource.put P ctx tag_id body st
       = (inr (TagResource.not_found tag_id), st))
  /\ TagResource.delete P ctx tag_id st
     = (inr (TagResource.not_found tag_id), st)
  /\ status_of (TagResource.not_found tag_id) = 404.
Proof.
  intros H. apply query_get_none in H. split; [|split].
  - intros body data Hload. unfold TagResource.put. rewrite Hload.
    unfold bind, Tag_query_get. now rewrite H.
  - unfold TagResource.delete, bind, Tag_query_get. now rewrite H.
  - reflexivity.
Qed.

Lemma unknown_id_is_404_witness :
  let st := mkState example_table [] [] in
  let ctx := mkCtx (Some connection_lost) "4" 40 in
  TagResource.put example_platform ctx "9" (<["name" := JString "go"]> ∅) st
    = (inr (make_error_response 404 (Text "Tag '9' not found") None), st)
  /\ TagResource.delete example_platform ctx "9" st
    = (inr (make_error_response 404 (Text "Tag '9' not found") None), st).
Proof.
  pose proof (unknown_id_is_404 example_platform
                (mkCtx (Some connection_lost) "4" 40) "9"
                (mkState example_table [] []) eq_refl) as (Hput & Hdel & _).
  split; [|exact Hdel].
  exact (Hput (<["name" := JString "go"]> ∅) (Some "go") eq_refl).
Defined.

(** ** The schemas *)

(** X12: The create schema accepts exactly the bodies whose [name] is a string
    of 1 to 64 characters; the update schema accepts those and the bodies
    without [name]; so every body good for a creation is good for an
    update, and other keys of the body never matter. *)
Theorem schemas_accept (body : gmap string json) :
  (forall name,
     Schema.CreateTagSchema_load body = inr name <->
     body !! "name" = Some (JString name)
     /\ (1 <= String.length name <= 64)%nat)
  /\ (forall data,
        Schema.UpdateTagSchema_load body = inr data <->
        (body !! "name" = None /\ data = None)
        \/ (exists name,
              body !! "name" = Some (JString name) /\ data = Some name
              /\ (1 <= String.length name <= 64)%nat))
  /\ (forall name,
        Schema.CreateTagSchema_load body = inr name ->
        Schema.UpdateTagSchema_load body = inr (Some name))
  /\ (forall key value,
        key <> "name" ->
        Schema.CreateTagSchema_load (<[key := value]> body)
          = Schema.CreateTagSchema_load body
        /\ Schema.UpdateTagSchema_load (<[key := value]> body)
           = Schema.UpdateTagSchema_load body).
Proof.
  assert (Hlen : forall s, Schema.Length_1_64 s = true <->
                           (1 <= String.length s <= 64)%nat).
  { intros s. unfold Schema.Length_1_64.
    rewrite andb_true_iff, !Nat.leb_le. reflexivity. }
  unfold Schema.CreateTagSchema_load, Schema.UpdateTagSchema_load,
    Schema.Str_deserialize.
  split; [|split; [|split]].
  - intros name. destruct (body !! "name") as [[| | |s| |]|];
      try (split; [discriminate|intros [[=] _]]).
    destruct (Schema.Length_1_64 s) eqn:Hs.
    + apply Hlen in Hs. split; [now intros [= <-]|now intros [[= <-] _]].
    + split; [discriminate|]. intros [[= <-] Hn]. apply Hlen in Hn. congruence.
  - intros data. destruct (body !! "name") as [[| | |s| |]|];
      try (split; [discriminate|intros [[[=] _]|(nm & [=] & _)]]).
    + destruct (Schema.Length_1_64 s) eqn:Hs.
      * apply Hlen in Hs. split.
        -- intros [= <-]. right. now exists s.
        -- intros [[[=] _]|(nm & [= <-] & -> & _)]. reflexivity.
      * split; [discriminate|].
        intros [[[=] _]|(nm & [= <-] & _ & Hn)]. apply Hlen in Hn. congruence.
    + split; [intros [= <-]; now left|].
      intros [[_ ->]|(nm & [=] & _)]. reflexivity.
  - intros name. destruct (body !! "name") as [[| | |s| |]|]; try discriminate.
    destruct (Schema.Length_1_64 s); [now intros [= <-]|discriminate].
  - intros key value Hkey. now rewrite lookup_insert_ne by assumption.
Qed.

Lemma schemas_accept_witness :
  Schema.CreateTagSchema_load (<["name" := JString "go"]> ∅) = inr "go"
  /\ Schema.UpdateTagSchema_load (<["name" := JString "go"]> ∅)
     = inr (Some "go").
Proof.
  pose proof (schemas_accept (<["name" := JString "go"]> ∅))
    as (Hcreate & _ & Hboth & _).
  assert (H : Schema.CreateTagSchema_load (<["name" := JString "go"]> ∅)
              = inr "go").
  { apply (proj2 (Hcreate "go")). split; [reflexivity|]. simpl. lia. }
  split; [exact H|exact (Hboth "go" H)].
Defined.

(** ** Outcomes of the mutating handlers *)

(** The four ways a commit wrapped in [except IntegrityError] can end. *)
Lemma commit_handled_cases (P : Platform) (ctx : Ctx) (s0 : State)
  (k : State -> response) :
  let R := match session_commit P ctx s0 with
           | (inl ex, st') =>
               if isinstance_IntegrityError ex
               then TagResource.on_integrity_error ex st' else (inl ex, st')
           | (inr _, st') => (inr (k st'), st')
           end in
  (exists ex,
     isinstance_IntegrityError ex = false /\ R = (inl ex, rolled_back s0))
  \/ (exists ex,
        R = (inr (make_error_response 409 (Text (orig ex)) None),
             rolled_back s0))
  \/ (exists ex,
        R = (inr (make_error_response 500 (Text "DB Error") (Some (code ex))),
             logged "An unknown db error occurred" (rolled_back s0)))
  \/ (exists table,
        fault ctx = None
        /\ flush P ctx (session s0) (rows s0) = inr table
        /\ R = (inr (k (mkState table [] (log s0))),
                mkState table [] (log s0))).
Proof.
  intros R. subst R.
  assert (Hex : forall ex,
    (exists ex0, isinstance_IntegrityError ex0 = false /\
       (if isinstance_IntegrityError ex
        then TagResource.on_integrity_error ex (rolled_back s0)
        else (inl ex, rolled_back s0))
       = (inl ex0, rolled_back s0))
    \/ (exists ex0,
         (if isinstance_IntegrityError ex
          then TagResource.on_integrity_error ex (rolled_back s0)
        else (inl ex, rolled_back s0))
         = (inr (make_error_response 409 (Text (orig ex0)) None),
            rolled_back s0))
    \/ (exists ex0,
         (if isinstance_IntegrityError ex
          then TagResource.on_integrity_error ex (rolled_back s0)
        else (inl ex, rolled_back s0))
         = (inr (make_error_response 500 (Text "DB Error") (Some (code ex0))),
            logged "An unknown db error occurred" (rolled_back s0)))).
  { intros ex. destruct (isinstance_IntegrityError ex) eqn:Hi.
    - right. destruct (TagResource.is_duplicate (orig ex)) eqn:Hd.
      + left. exists ex. now rewrite on_integrity_error_duplicate.
      + right. exists ex. now rewrite on_integrity_error_other.
    - left. now exists ex. }
  unfold session_commit. fold (rolled_back s0).
  destruct (fault ctx) as [ex|].
  - destruct (Hex ex) as [H|[H|H]]; auto.
  - destruct (flush P ctx (session s0) (rows s0)) as [ex|table] eqn:Hf.
    + destruct (Hex ex) as [H|[H|H]]; auto.
    + right. right. right. now exists table.
Qed.

(** X13: [post] answers 400 exactly when the body fails the create schema; the
    state is then untouched and no commit is tried. In every other case the
    answer is 200, 409 or 500, or an exception leaves the handler. *)
Theorem create_is_400_iff_invalid (P : Platform) (ctx : Ctx)
  (body : gmap string json) (st : State) :
  ((exists r, fst (TagResource.post P ctx body st) = inr r /\ status_of r = 400)
   <-> exists errors, Schema.CreateTagSchema_load body = inl errors)
  /\ (forall errors,
        Schema.CreateTagSchema_load body = inl errors ->
        TagResource.post P ctx body st
          = (inr (make_error_response 400 (FieldErrors errors) None), st))
  /\ (forall r,
        fst (TagResource.post P ctx body st) = inr r ->
        status_of r = 200 \/ status_of r = 400
        \/ status_of r = 409 \/ status_of r = 500).
Proof.
  destruct (Schema.CreateTagSchema_load body) as [errors|name] eqn:Hload.
  - assert (H : TagResource.post P ctx body st
                = (inr (make_error_response 400 (FieldErrors errors) None), st))
      by (unfold TagResource.post; now rewrite Hload).
    rewrite H. simpl. split; [|split].
    + split; [now exists errors|]. intros _. now eexists.
    + now intros ? [= <-].
    + intros r [= <-]. auto.
  - rewrite (post_valid _ _ _ _ _ Hload).
    destruct (commit_handled_cases P ctx (pending (Insert name) st)
                (fun _ => TagBody (inserted ctx name)))
      as [(ex & _ & ->)|[(ex & ->)|[(ex & ->)|(table & _ & _ & ->)]]];
      simpl; (split; [split|split]).
    all: try (intros (errors & [=])).
    all: try (intros ? [=]; fail).
    all: try (intros (r & [=] & _); fail).
    all: try (intros (r & [= <-] & Hr); simpl in Hr; discriminate).
    all: intros r [= <-]; simpl; auto.
Qed.

Lemma create_is_400_iff_invalid_witness :
  let st := mkState example_table [] [] in
  let ctx := mkCtx (Some connection_lost) "4" 40 in
  TagResource.post example_platform ctx (<["name" := JNull]> ∅) st
    = (inr (make_error_response 400
              (FieldErrors {[ "name" := [Schema.msg_null] ]}) None), st)
  /\ exists errors,
       Schema.CreateTagSchema_load (<["title" := JString "x"]> ∅)
       = inl errors.
Proof.
  split.
  - exact (proj1 (proj2 (create_is_400_iff_invalid example_platform
             (mkCtx (Some connection_lost) "4" 40) (<["name" := JNull]> ∅)
             (mkState example_table [] [])))
             {[ "name" := [Schema.msg_null] ]} eq_refl).
  - apply (proj1 (proj1 (create_is_400_iff_invalid example_platform
             (mkCtx None "4" 40) (<["title" := JString "x"]> ∅)
             (mkState example_table [] [])))).
    eexists. split; reflexivity.
Defined.

Lemma query_get_app (tag_id : string) (table : list Tag.t) (tag : Tag.t) :
  Query.get tag_id (table ++ [tag]) =
    match Query.get tag_id table with
    | Some found => Some found
    | None => if String.eqb (Tag.id tag) tag_id then Some tag else None
    end.
Proof.
  unfold Query.get. induction table as [|t l IH]; simpl; [reflexivity|].
  now destruct (String.eqb (Tag.id t) tag_id).
Qed.

(** X14: A creation with a valid body, a name and an id no row has, and a store
    that does not fail, answers with the new tag, which carries the name of
    the body; the tag is appended to the table, the session is clean again,
    nothing is logged; a following request for its id returns it, and
    requests for other ids are answered as before. *)
Theorem create_then_get (P : Platform) (ctx : Ctx) (body : gmap string json)
  (name : string) (st : State) :
  clean st ->
  Schema.CreateTagSchema_load body = inr name ->
  fault ctx = None ->
  id_taken (new_id ctx) (rows st) = false ->
  name_taken name (rows st) = false ->
  new_id ctx <> EmptyString ->
  exists tag st',
    TagResource.post P ctx body st = (inr (TagBody tag), st')
    /\ Tag.name tag = name /\ Tag.id tag = new_id ctx
    /\ rows st' = rows st ++ [tag] /\ clean st' /\ log st' = log st
    /\ (forall args,
          TagResource.get P args (Some (new_id ctx)) (rows st')
            = inr (TagBody tag))
    /\ (forall args other,
          other <> new_id ctx -> other <> EmptyString ->
          TagResource.get P args (Some other) (rows st')
            = TagResource.get P args (Some other) (rows st)).
Proof.
  intros Hclean Hload Hfault Hid Hname Hne.
  exists (inserted ctx name),
    (mkState (rows st ++ [inserted ctx name]) [] (log st)).
  split.
  { rewrite (post_valid _ _ _ _ _ Hload).
    unfold session_commit, pending. rewrite Hfault. simpl.
    rewrite Hclean. simpl. now rewrite Hid, Hname. }
  repeat (split; [reflexivity|]). simpl. split.
  - intros args. destruct (new_id ctx) as [|c i] eqn:Hnew; [congruence|].
    unfold TagResource.get, TagResource._get_by_id.
    rewrite query_get_app, (query_get_none _ _ Hid). simpl.
    now rewrite Hnew, String.eqb_refl.
  - intros args [|c o] Hother Hne'; [congruence|].
    unfold TagResource.get, TagResource._get_by_id.
    rewrite query_get_app. simpl.
    destruct (Query.get (String c o) (rows st)); [reflexivity|].
    apply not_eq_sym, String.eqb_neq in Hother. now rewrite Hother.
Qed.

Lemma create_then_get_witness :
  exists tag st',
    TagResource.post example_platform (mkCtx None "4" 40)
      (<["name" := JString "go"]> ∅) (mkState example_table [] [])
    = (inr (TagBody tag), st')
    /\ Tag.name tag = "go" /\ Tag.id tag = "4"
    /\ rows st' = example_table ++ [tag].
Proof.
  destruct (create_then_get example_platform (mkCtx None "4" 40)
              (<["name" := JString "go"]> ∅) "go"
              (mkState example_table [] []))
    as (tag & st' & Hpost & Hn & Hi & Hr & _);
    try reflexivity; try discriminate.
  now exists tag, st'.
Defined.

(** ** Which integrity errors are conflicts *)

Lemma lower_app (a b : string) :
  PyStr.lower (a +:+ b) = PyStr.lower a +:+ PyStr.lower b.
Proof. induction a as [|c a IH]; simpl; [reflexivity|now rewrite IH]. Qed.

Lemma prefix_app (w s : string) : String.prefix w (w +:+ s) = true.
Proof.
  induction w as [|c w IH]; simpl; [now destruct s|].
  destruct (Ascii.ascii_dec c c); [exact IH|congruence].
Qed.

Lemma contains_app (w a b : string) : PyStr.contains w (a +:+ w +:+ b) = true.
Proof.
  induction a as [|c a IH].
  - change (EmptyString +:+ w +:+ b) with (w +:+ b).
    pose proof (prefix_app w b) as Hp.
    destruct (w +:+ b); cbn [PyStr.contains]; now rewrite Hp.
  - change (String c a +:+ w +:+ b) with (String c (a +:+ w +:+ b)).
    cbn [PyStr.contains]. rewrite IH. apply orb_true_r.
Qed.

(** X15: The test for a uniqueness violation ignores letter case and position:
    a reason that holds the word "unique" or "duplicate" anywhere, in any
    mix of upper and lower case, is a conflict. *)
Theorem duplicate_marker_any_case (before word after : string) :
  PyStr.lower word = "unique" \/ PyStr.lower word = "duplicate" ->
  TagResource.is_duplicate (before +:+ word +:+ after) = true.
Proof.
  intros H. unfold TagResource.is_duplicate, PyStr.any_in.
  rewrite !lower_app. simpl.
  destruct H as [-> | ->]; rewrite contains_app; simpl;
    [apply orb_true_r|reflexivity].
Qed.

Lemma duplicate_marker_any_case_witness :
  TagResource.is_duplicate
    ("(1062, " +:+ "Duplicate" +:+ " entry 'db' for key 'name')") = true.
Proof.
  exact (duplicate_marker_any_case "(1062, " "Duplicate"
           " entry 'db' for key 'name')" (or_intror eq_refl)).
Defined.



(** ** What a mutation leaves behind *)

Lemma commit_cases (P : Platform) (ctx : Ctx) (s0 : State) :
  (exists ex, session_commit P ctx s0 = (inl ex, rolled_back s0))
  \/ (exists table, session_commit P ctx s0 = (inr tt, mkState table [] (log s0))).
Proof.
  unfold session_commit. fold (rolled_back s0).
  destruct (fault ctx); [left; eauto|].
  destruct (flush P ctx (session s0) (rows s0)); [left|right]; eauto.
Qed.

(** The outcome of a mutating handler, its effect on the table and on the
    log, in one statement: the table only changes with the success
    response, and a line is only logged with a 500. *)
Lemma mutation_summary (P : Platform) (ctx : Ctx) (tag_id : string)
  (body : gmap string json) (st : State) :
  let summary (success : response -> Prop) (run : (DBAPIError + response) * State) :=
    (rows (snd run) = rows st \/ exists r, fst run = inr r /\ success r)
    /\ (log (snd run) = log st
        \/ (log (snd run) = log st ++ ["An unknown db error occurred"]
            /\ exists c, fst run
                         = inr (make_error_response 500 (Text "DB Error") (Some c))))
  in
  summary (fun r => exists tag, r = TagBody tag) (TagResource.post P ctx body st)
  /\ summary (fun r => exists tag, r = TagBody tag)
       (TagResource.put P ctx tag_id body st)
  /\ summary (fun r => r = NoContent) (TagResource.delete P ctx tag_id st).
Proof.
  intros summary. unfold summary. split; [|split].
  - destruct (Schema.CreateTagSchema_load body) as [errors|name] eqn:Hload.
    + unfold TagResource.post. rewrite Hload. simpl. auto.
    + rewrite (post_valid _ _ _ _ _ Hload).
      destruct (commit_handled_cases P ctx (pending (Insert name) st)
                  (fun _ => TagBody (inserted ctx name)))
        as [(ex & _ & ->)|[(ex & ->)|[(ex & ->)|(table & _ & _ & ->)]]];
        simpl; eauto 8.
  - destruct (Schema.UpdateTagSchema_load body) as [errors|data] eqn:Hload.
    + unfold TagResource.put. rewrite Hload. simpl. auto.
    + destruct (Query.get tag_id (rows st)) as [tag|] eqn:Hget.
      * rewrite (put_valid _ _ _ _ _ _ _ Hload Hget). unfold Tag_update.
        set (s0 := match data with
                   | Some name =>
                       mkState (rows st)
                         (session st ++ [SetName (Tag.id tag) name]) (log st)
                   | None => st
                   end).
        assert (Hr : rows s0 = rows st) by (subst s0; now destruct data).
        assert (Hl : log s0 = log st) by (subst s0; now destruct data).
        destruct (commit_handled_cases P ctx s0
                    (fun st' => TagBody (default tag (Query.get tag_id (rows st')))))
          as [(ex & _ & ->)|[(ex & ->)|[(ex & ->)|(table & _ & _ & ->)]]];
          simpl; rewrite ?Hr, ?Hl; eauto 8.
      * unfold TagResource.put. rewrite Hload.
        unfold bind, Tag_query_get. rewrite Hget. simpl. auto.
  - destruct (Query.get tag_id (rows st)) as [tag|] eqn:Hget.
    + rewrite (delete_found _ _ _ _ _ Hget).
      destruct (commit_cases P ctx (pending (Remove (Tag.id tag)) st))
        as [(ex & ->)|(table & ->)].
      * destruct (isinstance_DatabaseError ex); simpl; eauto 8.
      * simpl. eauto 8.
    + unfold TagResource.delete, bind, Tag_query_get. rewrite Hget.
      simpl. auto.
Qed.

(** X17: A creation, update or deletion that does not answer with its success
    response (the tag, or 204) leaves the stored rows exactly as they
    were: no error response and no escaping exception goes with a changed
    table. *)
Theorem table_changes_only_on_success (P : Platform) (ctx : Ctx)
  (tag_id : string) (body : gmap string json) (st : State) :
  ((forall tag, fst (TagResource.post P ctx body st) <> inr (TagBody tag)) ->
   rows (snd (TagResource.post P ctx body st)) = rows st)
  /\ ((forall tag,
         fst (TagResource.put P ctx tag_id body st) <> inr (TagBody tag)) ->
      rows (snd (TagResource.put P ctx tag_id body st)) = rows st)
  /\ (fst (TagResource.delete P ctx tag_id st) <> inr NoContent ->
      rows (snd (TagResource.delete P ctx tag_id st)) = rows st).
Proof.
  destruct (mutation_summary P ctx tag_id body st)
    as ((Hpost & _) & (Hput & _) & (Hdel & _)).
  split; [|split].
  - intros Hno. destruct Hpost as [H|(r & Hr & tag & ->)]; [exact H|].
    now destruct (Hno tag).
  - intros Hno. destruct Hput as [H|(r & Hr & tag & ->)]; [exact H|].
    now destruct (Hno tag).
  - intros Hno. destruct Hdel as [H|(r & Hr & ->)]; [exact H|].
    now destruct Hno.
Qed.

Lemma table_changes_only_on_success_witness :
  rows (snd (TagResource.post example_platform (mkCtx None "4" 40)
               (<["name" := JString "web"]> ∅) (mkState example_table [] [])))
  = example_table.
Proof.
  refine (proj1 (table_changes_only_on_success example_platform
                   (mkCtx None "4" 40) "1" (<["name" := JString "web"]> ∅)
                   (mkState example_table [] [])) _).
  intros tag. discriminate.
Defined.

(** X18: A handler only writes to the log when it answers 500 "DB Error", and
    then one line; 400, 404 and 409 answers, successes and escaping
    exceptions leave the log as it was. *)
Theorem log_only_with_500 (P : Platform) (ctx : Ctx)
  (tag_id : string) (body : gmap string json) (st : State)
  (run : (DBAPIError + response) * State) :
  run = TagResource.post P ctx body st
  \/ run = TagResource.put P ctx tag_id body st
  \/ run = TagResource.delete P ctx tag_id st ->
  log (snd run) <> log st ->
  log (snd run) = log st ++ ["An unknown db error occurred"]
  /\ exists c,
       fst run = inr (make_error_response 500 (Text "DB Error") (Some c)).
Proof.
  destruct (mutation_summary P ctx tag_id body st)
    as ((_ & Hpost) & (_ & Hput) & (_ & Hdel)).
  intros [-> | [-> | ->]] Hlog;
    [destruct Hpost as [H|H]|destruct Hput as [H|H]|destruct Hdel as [H|H]];
    congruence || exact H.
Qed.

Lemma log_only_with_500_witness :
  let st := mkState example_table [] [] in
  let run := TagResource.delete example_platform
               (mkCtx (Some connection_lost) "4" 40) "1" st in
  log (snd run) = ["An unknown db error occurred"]
  /\ exists c,
       fst run = inr (make_error_response 500 (Text "DB Error") (Some c)).
Proof.
  refine (log_only_with_500 example_platform
            (mkCtx (Some connection_lost) "4" 40) "1" ∅
            (mkState example_table [] [])
            (TagResource.delete example_platform
               (mkCtx (Some connection_lost) "4" 40) "1"
               (mkState example_table [] []))
            (or_intror (or_intror eq_refl)) _).
  discriminate.
Defined.

(** X19: The answers of [put] are 200, 400, 404, 409 and 500, those of [delete]
    are 204, 404 and 500: a deletion is never answered 409, whatever the
    store reports. *)
Theorem update_and_delete_statuses (P : Platform) (ctx : Ctx)
  (tag_id : string) (body : gmap string json) (st : State) (r : response) :
  (fst (TagResource.put P ctx tag_id body st) = inr r ->
   In (status_of r) [200; 400; 404; 409; 500])
  /\ (fst (TagResource.delete P ctx tag_id st) = inr r ->
      In (status_of r) [204; 404; 500]).
Proof.
  split.
  - destruct (Schema.UpdateTagSchema_load body) as [errors|data] eqn:Hload.
    + unfold TagResource.put. rewrite Hload. simpl. intros [= <-]. simpl. auto.
    + destruct (Query.get tag_id (rows st)) as [tag|] eqn:Hget.
      * rewrite (put_valid _ _ _ _ _ _ _ Hload Hget). unfold Tag_update.
        match goal with
        | |- context [session_commit P ctx ?s] =>
            destruct (commit_handled_cases P ctx s
              (fun st' => TagBody (default tag (Query.get tag_id (rows st')))))
              as [(ex & _ & ->)|[(ex & ->)|[(ex & ->)|(table & _ & _ & ->)]]]
        end; simpl; try discriminate; intros [= <-]; simpl; auto 8.
      * unfold TagResource.put. rewrite Hload.
        unfold bind, Tag_query_get. rewrite Hget. simpl.
        intros [= <-]. simpl. auto.
  - destruct (Query.get tag_id (rows st)) as [tag|] eqn:Hget.
    + rewrite (delete_found _ _ _ _ _ Hget).
      destruct (commit_cases P ctx (pending (Remove (Tag.id tag)) st))
        as [(ex & ->)|(table & ->)].
      * destruct (isinstance_DatabaseError ex); simpl; [|discriminate].
        intros [= <-]. simpl. auto.
      * simpl. intros [= <-]. simpl. auto.
    + unfold TagResource.delete, bind, Tag_query_get. rewrite Hget.
      simpl. intros [= <-]. simpl. auto.
Qed.

Lemma update_and_delete_statuses_witness :
  In (status_of
        (make_error_response 409
           (Text "UNIQUE constraint failed: tag.name") None))
     [200; 400; 404; 409; 500].
Proof.
  exact (proj1 (update_and_delete_statuses example_platform
                  (mkCtx None "4" 40) "1" (<["name" := JString "web"]> ∅)
                  (mkState example_table [] [])
                  (make_error_response 409
                     (Text "UNIQUE constraint failed: tag.name") None))
           eq_refl).
Defined.



(** ** Successful deletions and updates *)

Lemma id_taken_after_remove (tag_id : string) (table : list Tag.t) :
  id_taken tag_id
    (List.filter (fun tag => negb (String.eqb (Tag.id tag) tag_id)) table)
  = false.
Proof.
  unfold id_taken. induction table as [|t l IH]; simpl; [reflexivity|].
  destruct (String.eqb (Tag.id t) tag_id) eqn:Ht; simpl; [exact IH|].
  now rewrite Ht.
Qed.

(** X21: A deletion of an id some row has, with a store that does not fail,
    answers 204; no row with that id is left, so a following request for it
    is answered 404; the rows with other ids are all still there, in the
    same order, and nothing is logged. *)
Theorem delete_then_get (P : Platform) (ctx : Ctx) (tag_id : string)
  (st : State) :
  clean st ->
  fault ctx = None ->
  id_taken tag_id (rows st) = true ->
  tag_id <> EmptyString ->
  exists st',
    TagResource.delete P ctx tag_id st = (inr NoContent, st')
    /\ rows st'
       = List.filter (fun tag => negb (String.eqb (Tag.id tag) tag_id)) (rows st)
    /\ clean st' /\ log st' = log st
    /\ (forall args,
          TagResource.get P args (Some tag_id) (rows st')
            = inr (TagResource.not_found tag_id))
    /\ (forall tag, Tag.id tag <> tag_id ->
          (In tag (rows st') <-> In tag (rows st))).
Proof.
  intros Hclean Hfault Hid Hne.
  destruct (query_get_some _ _ Hid) as (tag & Hget & _ & Htag).
  exists (mkState
            (List.filter (fun t => negb (String.eqb (Tag.id t) tag_id)) (rows st))
            [] (log st)).
  split.
  { rewrite (delete_found _ _ _ _ _ Hget).
    unfold session_commit, pending. rewrite Hfault. simpl.
    rewrite Hclean, Htag. reflexivity. }
  repeat (split; [reflexivity|]). simpl. split.
  - intros args. destruct tag_id as [|c i]; [congruence|].
    unfold TagResource.get, TagResource._get_by_id.
    now rewrite (query_get_none _ _ (id_taken_after_remove _ _)).
  - intros t Ht. rewrite filter_In.
    apply String.eqb_neq in Ht. rewrite Ht. simpl. tauto.
Qed.

Lemma delete_then_get_witness :
  exists st',
    TagResource.delete example_platform (mkCtx None "4" 40) "2"
      (mkState example_table [] []) = (inr NoContent, st')
    /\ rows st' = [Tag.mk "1" "db" 10 10; Tag.mk "3" "a_b" 30 20].
Proof.
  destruct (delete_then_get example_platform (mkCtx None "4" 40) "2"
              (mkState example_table [] []))
    as (st' & Hdel & Hrows & _); try reflexivity; try discriminate.
  exists st'. split; [exact Hdel|exact Hrows].
Defined.

Lemma query_get_renamed (ctx : Ctx) (tag_id other name : string)
  (table : list Tag.t) :
  Query.get other
    (map (fun tag => if String.eqb (Tag.id tag) tag_id
                     then renamed ctx name tag else tag) table)
  = (fun tag => if String.eqb (Tag.id tag) tag_id
                then renamed ctx name tag else tag)
      <$> Query.get other table.
Proof.
  unfold Query.get. induction table as [|t l IH]; simpl; [reflexivity|].
  destruct (String.eqb (Tag.id t) tag_id) eqn:Ht; simpl;
    destruct (String.eqb (Tag.id t) other) eqn:Ho; simpl;
    rewrite ?Ht; auto.
Qed.

(** X22: An update of an existing tag to a name no other row has, with a store
    that does not fail, answers with the tag under its new name, with the
    same id and creation time; a following request for the id returns that
    tag, the requests for other ids are answered as before, and the number
    of rows is the same. *)
Theorem update_then_get (P : Platform) (ctx : Ctx) (tag_id : string)
  (body : gmap string json) (name : string) (tag : Tag.t) (st : State) :
  clean st ->
  Schema.UpdateTagSchema_load body = inr (Some name) ->
  fault ctx = None ->
  Query.get tag_id (rows st) = Some tag ->
  name_taken_by_other tag_id name (rows st) = false ->
  exists tag' st',
    TagResource.put P ctx tag_id body st = (inr (TagBody tag'), st')
    /\ Tag.name tag' = name /\ Tag.id tag' = tag_id
    /\ Tag.created_at tag' = Tag.created_at tag
    /\ Query.get tag_id (rows st') = Some tag'
    /\ (forall other, other <> tag_id ->
          Query.get other (rows st') = Query.get other (rows st))
    /\ length (rows st') = length (rows st)
    /\ clean st' /\ log st' = log st.
Proof.
  intros Hclean Hload Hfault Hget Hfree.
  assert (Hid : Tag.id tag = tag_id).
  { unfold Query.get in Hget. apply find_some in Hget as [_ H].
    now apply String.eqb_eq. }
  set (rename := fun t : Tag.t => if String.eqb (Tag.id t) tag_id
                                  then renamed ctx name t else t).
  exists (renamed ctx name tag), (mkState (map rename (rows st)) [] (log st)).
  assert (Hnew : Query.get tag_id (map rename (rows st))
                 = Some (renamed ctx name tag)).
  { subst rename. rewrite query_get_renamed, Hget. simpl.
    now rewrite Hid, String.eqb_refl. }
  split.
  { rewrite (put_valid _ _ _ _ _ _ _ Hload Hget).
    unfold Tag_update, session_commit. rewrite Hfault. simpl.
    rewrite Hclean. simpl. rewrite Hid, Hfree. simpl.
    fold rename. now rewrite Hnew. }
  simpl. repeat (split; [reflexivity || assumption|]).
  split; [|split; [|split; reflexivity]].
  - intros other Hother. subst rename. rewrite query_get_renamed.
    destruct (Query.get other (rows st)) as [t|] eqn:Ho; [|reflexivity].
    simpl. unfold Query.get in Ho. apply find_some in Ho as [_ Ho].
    apply String.eqb_eq in Ho. rewrite Ho.
    apply String.eqb_neq in Hother. now rewrite Hother.
  - now rewrite length_map.
Qed.

Lemma update_then_get_witness :
  exists tag' st',
    TagResource.put example_platform (mkCtx None "4" 40) "1"
      (<["name" := JString "go"]> ∅) (mkState example_table [] [])
    = (inr (TagBody tag'), st')
    /\ Tag.name tag' = "go" /\ Tag.id tag' = "1".
Proof.
  destruct (update_then_get example_platform (mkCtx None "4" 40) "1"
              (<["name" := JString "go"]> ∅) "go" (Tag.mk "1" "db" 10 10)
              (mkState example_table [] []))
    as (tag' & st' & Hput & Hn & Hi & _); try reflexivity.
  now exists tag', st'.
Defined.
